(** * Sandboxed task wrappers of [tasksB.py]: the guard [B12] and the tasks
    [B3] .. [B9]

    The development embeds the module [TDSP-1-main/tasksB.py].  Path strings
    are [string] (sequences of 8-bit characters; the path functions below only
    ever inspect the characters '/' and '.').  The functions of [os.path] that
    the guard calls are transcribed from CPython's [posixpath] module.  The
    tasks run in a small state-and-exception monad over a file store and a
    trace of the external operations performed. *)

From stdpp Require Import gmap strings list fin_maps.
From Stdlib Require Import ZArith Ascii String.

Local Open Scope string_scope.
Local Open Scope Z_scope.

(* ===================================================================== *)
(** ** Python values and exceptions *)
(* ===================================================================== *)

(** The Python objects a caller can hand to the guard. *)
Inductive pyobj : Type :=
  | PStr (s : string)
  | PBytes (b : string)
  | PInt (n : Z)
  | PNone.

(** The exceptions that the module and its collaborators raise. *)
Inductive exn : Type :=
  | TypeError
  | PermissionError (msg : string)
  | ValueError (msg : string)
  | HTTPError (status : Z)
  | ConnectionError
  | CalledProcessError (returncode : Z) (cmd : list string)
  | FileNotFoundError (path : string)
  | OSError (path : string)
  | DatabaseError (msg : string)
  | ImageError (msg : string)
  | APIError (msg : string).

(** Outcome of a computation that may raise. *)
Inductive result (A : Type) : Type :=
  | Ok (a : A)
  | Err (e : exn).
Arguments Ok {A} a.
Arguments Err {A} e.

Definition rbind {A B} (r : result A) (k : A -> result B) : result B :=
  match r with
  | Ok a => k a
  | Err e => Err e
  end.

(* ===================================================================== *)
(** ** String methods used by the module *)
(* ===================================================================== *)

Module Str.

(** [s.startswith(p)] *)
Fixpoint startswith (s p : string) {struct p} : bool :=
  match p, s with
  | EmptyString, _ => true
  | String _ _, EmptyString => false
  | String b p', String a s' => Ascii.eqb a b && startswith s' p'
  end.

(** [s.endswith(p)]: some tail of [s] is [p]. *)
Fixpoint endswith (s p : string) : bool :=
  String.eqb s p
  || match s with
     | EmptyString => false
     | String _ s' => endswith s' p
     end.

(** [s.split(sep)] for a one-character separator. *)
Fixpoint split (sep : ascii) (s : string) : list string :=
  match s with
  | EmptyString => [EmptyString]
  | String c s' =>
      if Ascii.eqb c sep then EmptyString :: split sep s'
      else match split sep s' with
           | [] => [String c EmptyString]
           | w :: ws => String c w :: ws
           end
  end.

(** [sep.join(l)] *)
Fixpoint join (sep : string) (l : list string) : string :=
  match l with
  | [] => EmptyString
  | [x] => x
  | x :: l' => x +:+ sep +:+ join sep l'
  end.

(** [sep * n] *)
Fixpoint times (sep : string) (n : nat) : string :=
  match n with
  | O => EmptyString
  | S n' => sep +:+ times sep n'
  end.

End Str.

(* ===================================================================== *)
(** ** [posixpath]: join, normpath, abspath *)
(* ===================================================================== *)

Module posixpath.

Definition sep : string := "/".
Definition sep_char : ascii := "/"%char.

(** [join(a, b)]: a later absolute component discards what came before;
    otherwise components are glued with exactly one separator. *)
Definition join (a b : string) : string :=
  if Str.startswith b sep then b
  else if String.eqb a "" || Str.endswith a sep then a +:+ b
  else a +:+ sep +:+ b.

Definition is_nil {A} (l : list A) : bool :=
  match l with [] => true | _ => false end.

(** One iteration of the component loop of [normpath]. *)
Definition normpath_step (initial_slashes : nat) (new_comps : list string)
    (comp : string) : list string :=
  if String.eqb comp "" || String.eqb comp "." then new_comps
  else if negb (String.eqb comp "..")
          || (Nat.eqb initial_slashes 0 && is_nil new_comps)
          || (negb (is_nil new_comps)
              && String.eqb (List.last new_comps "") "..")
       then new_comps ++ [comp]
  else if negb (is_nil new_comps) then removelast new_comps
  else new_comps.

(** POSIX allows one or two initial slashes, and treats three or more as
    a single slash. *)
Definition initial_slashes (path : string) : nat :=
  if Str.startswith path sep then
    if Str.startswith path (Str.times sep 2)
       && negb (Str.startswith path (Str.times sep 3))
    then 2%nat else 1%nat
  else 0%nat.

Definition normpath (path : string) : string :=
  if String.eqb path "" then "."
  else
    let n := initial_slashes path in
    let comps := Str.split sep_char path in
    let new_comps := fold_left (normpath_step n) comps [] in
    let path' := Str.times sep n +:+ Str.join sep new_comps in
    if String.eqb path' "" then "." else path'.

(** [abspath] on a [str], in a process whose working directory is [cwd]. *)
Definition abspath_str (cwd path : string) : string :=
  normpath (if negb (Str.startswith path sep) then join cwd path else path).

(** [abspath(path)]: [os.fspath] rejects objects that are neither [str]
    nor [bytes]; the result has the type of the argument. *)
Definition abspath (cwd : string) (path : pyobj) : result pyobj :=
  match path with
  | PStr s => Ok (PStr (abspath_str cwd s))
  | PBytes b => Ok (PBytes (abspath_str cwd b))
  | PInt _ | PNone => Err TypeError
  end.

End posixpath.

(** [a.startswith(b)] on Python objects: a [str] receiver needs a [str]
    argument and a [bytes] receiver a [bytes] argument. *)
Definition py_startswith (a b : pyobj) : result bool :=
  match a, b with
  | PStr s, PStr p => Ok (Str.startswith s p)
  | PBytes s, PBytes p => Ok (Str.startswith s p)
  | _, _ => Err TypeError
  end.

(* ===================================================================== *)
(** ** The sandbox guard *)
(* ===================================================================== *)

(** [B12(filepath)]: is the normalized absolute path of [filepath] within
    '/data'?  [cwd] is the working directory of the process. *)
Definition B12 (cwd : string) (filepath : pyobj) : result bool :=
  rbind (posixpath.abspath cwd filepath) (fun normalized =>
  rbind (posixpath.abspath cwd (PStr "/data")) (fun allowed_dir =>
  py_startswith normalized allowed_dir)).

Arguments B12 : simpl never.

(* ===================================================================== *)
(** ** The guard in a process that may have lost its working directory *)
(* ===================================================================== *)

(** [os.getcwd()] (and [os.getcwdb()]): the working directory of the
    process, or [FileNotFoundError], without a file name, when that directory
    has been removed; [None] stands for the removed directory. *)
Definition os_getcwd (wd : option string) : result string :=
  match wd with
  | Some cwd => Ok cwd
  | None => Err (FileNotFoundError "")
  end.

(** [abspath] on a [str] or [bytes]: the working directory is asked for only
    when the path does not start with the separator. *)
Definition abspath_text (wd : option string) (path : string) : result string :=
  if negb (Str.startswith path posixpath.sep)
  then rbind (os_getcwd wd) (fun cwd =>
         Ok (posixpath.normpath (posixpath.join cwd path)))
  else Ok (posixpath.normpath path).

(** [os.path.abspath(path)] *)
Definition abspath_in (wd : option string) (path : pyobj) : result pyobj :=
  match path with
  | PStr s => rbind (abspath_text wd s) (fun n => Ok (PStr n))
  | PBytes b => rbind (abspath_text wd b) (fun n => Ok (PBytes n))
  | PInt _ | PNone => Err TypeError
  end.

(** [B12(filepath)] with the calls to [os.getcwd] made explicit. *)
Definition B12_in (wd : option string) (filepath : pyobj) : result bool :=
  rbind (abspath_in wd filepath) (fun normalized =>
  rbind (abspath_in wd (PStr "/data")) (fun allowed_dir =>
  py_startswith normalized allowed_dir)).

(* ===================================================================== *)
(** ** The outside world *)
(* ===================================================================== *)

(** What [requests.get] hands back. *)
Record response : Type := { status_code : Z; text : string }.

(** The two database engines of [B5]. *)
Inductive engine : Type := Sqlite3 | DuckDB.

(** External operations, in the order in which a task performs them. *)
Inductive event : Type :=
  | EvHttpGet (url : string)
  | EvOpen (path mode : string)
  | EvRead (path : string)
  | EvWrite (path data : string)
  | EvSubprocess (argv : list string)
  | EvConnect (e : engine) (db_path : string)
  | EvExecute (e : engine) (db_path query : string)
  | EvFetchall (e : engine) (db_path : string)
  | EvClose (e : engine) (db_path : string)
  | EvImageOpen (path : string)
  | EvImageSave (path : string)
  | EvTranscribe (model : string)
  | EvPrint (msg : string).

(** The file store (path string to contents) and the operations so far. *)
Record state : Type := { fs : gmap string string; trace : list event }.

(** The collaborators of the module, as the answers they give.  [rows] is the
    result set of a database cursor and [image] a decoded picture. *)
Record World (rows image : Type) : Type := {
  getcwd : string;
  environ : gmap string string;
  requests_get : string -> result response;
  subprocess_run : list string -> gmap string string -> Z * gmap string string;
  writable : string -> bool;
  connect_error : engine -> string -> option exn;
  run_query : engine -> string -> string -> result rows;
  str_rows : rows -> string;
  image_decode : string -> result image;
  image_resize : image -> Z * Z -> result image;
  image_encode : image -> string -> result string;
  transcribe : string -> string -> string -> result (gmap string string);
  markdown : string -> string
}.
Arguments getcwd {rows image} _.
Arguments environ {rows image} _.
Arguments requests_get {rows image} _ _.
Arguments subprocess_run {rows image} _ _ _.
Arguments writable {rows image} _ _.
Arguments connect_error {rows image} _ _ _.
Arguments run_query {rows image} _ _ _ _.
Arguments str_rows {rows image} _ _.
Arguments image_decode {rows image} _ _.
Arguments image_resize {rows image} _ _ _.
Arguments image_encode {rows image} _ _ _.
Arguments transcribe {rows image} _ _ _ _.
Arguments markdown {rows image} _ _.

(* ===================================================================== *)
(** ** The task monad: state survives a raised exception *)
(* ===================================================================== *)

Definition M (A : Type) : Type := state -> result A * state.

Definition ret {A} (a : A) : M A := fun s => (Ok a, s).

Definition raise {A} (e : exn) : M A := fun s => (Err e, s).

Definition bind {A B} (m : M A) (k : A -> M B) : M B :=
  fun s => match m s with
           | (Ok a, s') => k a s'
           | (Err e, s') => (Err e, s')
           end.

Definition lift {A} (r : result A) : M A :=
  match r with
  | Ok a => ret a
  | Err e => raise e
  end.

Declare Scope task_scope.
Delimit Scope task_scope with task.
Notation "x <- m ;; k" := (bind m (fun x => k))
  (at level 100, m at next level, k at level 200, right associativity)
  : task_scope.
Notation "m ;; k" := (bind m (fun _ => k))
  (at level 100, k at level 200, right associativity) : task_scope.
Local Open Scope task_scope.

Definition emit (ev : event) : M unit :=
  fun s => (Ok tt, {| fs := fs s; trace := trace s ++ [ev] |}).

Definition get_fs : M (gmap string string) := fun s => (Ok (fs s), s).

Definition put_fs (f : gmap string string) : M unit :=
  fun s => (Ok tt, {| fs := f; trace := trace s |}).

(** [print(msg)] *)
Definition print (msg : string) : M unit := emit (EvPrint msg).

(** [a or b] on conditions with effects: [b] runs only when [a] is false. *)
Definition por (a b : M bool) : M bool :=
  x <- a ;; if x then ret true else b.

Section Tasks.

Context {rows image : Type}.
Variable W : World rows image.

(** *** Primitives *)

(** [requests.get(url)] *)
Definition http_get (url : string) : M response :=
  emit (EvHttpGet url) ;; lift (requests_get W url).

(** [response.raise_for_status()] raises on the client (4xx) and server
    (5xx) status codes. *)
Definition http_failure (r : response) : bool :=
  (400 <=? status_code r) && (status_code r <? 600).

Definition raise_for_status (r : response) : M unit :=
  if http_failure r then raise (HTTPError (status_code r)) else ret tt.

(** [open(path, 'w')]: truncates or creates the file. *)
Definition open_w (path : string) : M unit :=
  emit (EvOpen path "w") ;;
  if writable W path
  then f <- get_fs ;; put_fs (<[path := ""]> f)
  else raise (OSError path).

(** [file.write(data)] on a handle opened for writing on [path]. *)
Definition file_write (path data : string) : M unit :=
  emit (EvWrite path data) ;;
  f <- get_fs ;;
  put_fs (<[path := default "" (f !! path) +:+ data]> f).

(** [open(path, mode)] for reading, and [file.read()]. *)
Definition open_r (path mode : string) : M unit :=
  emit (EvOpen path mode) ;;
  f <- get_fs ;;
  match f !! path with
  | Some _ => ret tt
  | None => raise (FileNotFoundError path)
  end.

Definition file_read (path : string) : M string :=
  emit (EvRead path) ;;
  f <- get_fs ;;
  ret (default "" (f !! path)).

(** [subprocess.run(argv, check=True)] *)
Definition subprocess_run_check (argv : list string) : M unit :=
  emit (EvSubprocess argv) ;;
  f <- get_fs ;;
  let '(rc, f') := subprocess_run W argv f in
  put_fs f' ;;
  if rc =? 0 then ret tt else raise (CalledProcessError rc argv).

(** [sqlite3.connect] / [duckdb.connect]; a connection is its engine and
    database path. *)
Definition connect (e : engine) (db_path : string) : M (engine * string) :=
  emit (EvConnect e db_path) ;;
  match connect_error W e db_path with
  | Some ex => raise ex
  | None => ret (e, db_path)
  end.

(** [cur.execute(query)]; the pending result set stands for the cursor. *)
Definition execute (conn : engine * string) (query : string) : M rows :=
  emit (EvExecute conn.1 conn.2 query) ;;
  lift (run_query W conn.1 conn.2 query).

Definition fetchall (conn : engine * string) (pending : rows) : M rows :=
  emit (EvFetchall conn.1 conn.2) ;; ret pending.

Definition close (conn : engine * string) : M unit :=
  emit (EvClose conn.1 conn.2).

(** [Image.open(path)] and [img.save(path)] *)
Definition image_open (path : string) : M image :=
  emit (EvImageOpen path) ;;
  f <- get_fs ;;
  match f !! path with
  | Some data => lift (image_decode W data)
  | None => raise (FileNotFoundError path)
  end.

Definition image_save (img : image) (path : string) : M unit :=
  emit (EvImageSave path) ;;
  data <- lift (image_encode W img path) ;;
  if writable W path
  then f <- get_fs ;; put_fs (<[path := data]> f)
  else raise (OSError path).

(** [openai.Audio.transcribe(model, audio_file)] *)
Definition audio_transcribe (api_key model audio_path : string)
    : M (gmap string string) :=
  audio <- file_read audio_path ;;
  emit (EvTranscribe model) ;;
  lift (transcribe W api_key model audio).

(** The guard as the tasks call it, on a [str] argument. *)
Definition guard (path : string) : M bool :=
  lift (B12 (getcwd W) (PStr path)).

Definition access_denied : exn :=
  PermissionError "Access outside /data is not allowed.".

(** *** [B3]: fetch data from an API *)
Definition B3 (url save_path : string) : M unit :=
  ok <- guard save_path ;;
  if negb ok then raise access_denied else
  response <- http_get url ;;
  raise_for_status response ;;
  open_w save_path ;;
  file_write save_path (text response) ;;
  print ("Data fetched from " +:+ url +:+ " and saved to " +:+ save_path).

(** *** [B4]: clone a git repository and make a commit *)
Definition B4 (repo_url commit_message clone_dir : string) : M unit :=
  ok <- guard clone_dir ;;
  if negb ok then raise access_denied else
  subprocess_run_check ["git"; "clone"; repo_url; clone_dir] ;;
  let dummy_file := posixpath.join clone_dir "dummy.txt" in
  open_w dummy_file ;;
  file_write dummy_file ("This is a dummy commit." +:+ String "010" "") ;;
  subprocess_run_check ["git"; "-C"; clone_dir; "add"; "."] ;;
  subprocess_run_check
    ["git"; "-C"; clone_dir; "commit"; "-m"; commit_message] ;;
  print ("Repository cloned from " +:+ repo_url +:+ " into " +:+ clone_dir
         +:+ " and commit made.").

(** The default of the third parameter of [B4]. *)
Definition B4_default_clone_dir : string := "/data/repo".

(** *** [B5]: run a SQL query on a SQLite or DuckDB database *)
Definition B5 (db_path query output_filename : string) : M rows :=
  denied <- por (ok <- guard db_path ;; ret (negb ok))
                (ok <- guard output_filename ;; ret (negb ok)) ;;
  if denied then raise access_denied else
  conn <- (if Str.endswith db_path ".db"
           then connect Sqlite3 db_path
           else connect DuckDB db_path) ;;
  cur <- execute conn query ;;
  result <- fetchall conn cur ;;
  close conn ;;
  open_w output_filename ;;
  file_write output_filename (str_rows W result) ;;
  print ("SQL query executed on " +:+ db_path +:+ " and results written to "
         +:+ output_filename) ;;
  ret result.

(** *** [B6]: web scraping *)
Definition B6 (url output_filename : string) : M unit :=
  ok <- guard output_filename ;;
  if negb ok then raise access_denied else
  response <- http_get url ;;
  let result := text response in
  open_w output_filename ;;
  file_write output_filename result ;;
  print ("Web content from " +:+ url +:+ " written to " +:+ output_filename).

(** *** [B7]: compress or resize an image; [resize] is [None] or a
    (width, height) pair, which is truthy. *)
Definition B7 (image_path output_path : string) (resize : option (Z * Z))
    : M unit :=
  denied <- por (ok <- guard image_path ;; ret (negb ok))
                (ok <- guard output_path ;; ret (negb ok)) ;;
  if denied then raise access_denied else
  img <- image_open image_path ;;
  img <- match resize with
         | Some size => lift (image_resize W img size)
         | None => ret img
         end ;;
  image_save img output_path ;;
  print ("Image processed from " +:+ image_path +:+ " and saved to "
         +:+ output_path).

(** *** [B8]: transcribe audio; [api_key] is the value that the source
    stores in [openai.api_key]. *)
Definition B8 (audio_path output_path : string) : M string :=
  denied <- por (ok <- guard audio_path ;; ret (negb ok))
                (ok <- guard output_path ;; ret (negb ok)) ;;
  if denied then raise access_denied else
  match environ W !! "OPENAI_API_KEY" with
  | None =>
      raise (ValueError
               "OPENAI_API_KEY is not set in the environment variables.")
  | Some api_key =>
      open_r audio_path "rb" ;;
      transcript <- audio_transcribe api_key "whisper-1" audio_path ;;
      let transcription_text := default "" (transcript !! "text") in
      open_w output_path ;;
      file_write output_path transcription_text ;;
      print ("Audio from " +:+ audio_path +:+ " transcribed and saved to "
             +:+ output_path) ;;
      ret transcription_text
  end.

(** *** [B9]: convert Markdown to HTML *)
Definition B9 (md_path output_path : string) : M unit :=
  denied <- por (ok <- guard md_path ;; ret (negb ok))
                (ok <- guard output_path ;; ret (negb ok)) ;;
  if denied then raise access_denied else
  open_r md_path "r" ;;
  src <- file_read md_path ;;
  let html := markdown W src in
  open_w output_path ;;
  file_write output_path html ;;
  print ("Markdown from " +:+ md_path +:+ " converted to HTML and saved to "
         +:+ output_path).

End Tasks.

(* ===================================================================== *)
(** ** The containment test in the words of the specification *)
(* ===================================================================== *)

(** The non-empty components of a path. *)
Definition path_segments (p : string) : list string :=
  List.filter (fun c => negb (String.eqb c "")) (Str.split posixpath.sep_char p).

(** Segment-wise containment: the components of the normalized absolute
    path begin with the components of the sandbox root. *)
Definition guard_spec (cwd path : string) : bool :=
  bool_decide (path_segments "/data"
               `prefix_of` path_segments (posixpath.abspath_str cwd path)).

(** [ch in s] *)
Fixpoint contains (ch : ascii) (s : string) : bool :=
  match s with
  | EmptyString => false
  | String c s' => Ascii.eqb c ch || contains ch s'
  end.

(** A component that [normpath] keeps: non-empty and free of separators. *)
Definition component (c : string) : Prop :=
  c <> "" /\ contains posixpath.sep_char c = false.

(** A string that is not a pathname: it is empty or holds a NUL character. *)
Fixpoint has_nul (p : string) : bool :=
  match p with
  | EmptyString => false
  | String c p' => Ascii.eqb c "000"%char || has_nul p'
  end.

Definition malformed (p : string) : bool := String.eqb p "" || has_nul p.

(* ===================================================================== *)
(** ** A concrete world *)
(* ===================================================================== *)

(** A process running in '/srv/app' with an empty environment, whose HTTP
    client answers every request with [r]; files can be opened for writing
    under '/data/'; a result set is a list of integer rows and an image is
    its size. *)
Definition serving (r : response) : World (list (list Z)) (Z * Z) :=
  {| getcwd := "/srv/app";
     environ := ∅;
     requests_get := fun _ => Ok r;
     subprocess_run := fun _ f => (0, f);
     writable := fun path => Str.startswith path "/data/";
     connect_error := fun _ _ => None;
     run_query := fun _ _ _ => Ok [[1]; [2]];
     str_rows := fun _ => "[(1,), (2,)]";
     image_decode := fun _ => Ok (640, 480);
     image_resize := fun _ size => Ok size;
     image_encode := fun _ _ => Ok "image";
     transcribe := fun _ _ _ => Ok ∅;
     markdown := fun src => src |}.

Definition not_found : response :=
  {| status_code := 404; text := "Not Found" |}.

Definition found : response :=
  {| status_code := 200; text := "hello" |}.

Definition start : state := {| fs := ∅; trace := [] |}.

(* ===================================================================== *)
(** ** Notions for the analysis of the guard and of the tasks *)
(* ===================================================================== *)

(** The components that the loop of [normpath] leaves for [q]. *)
Definition normpath_comps (q : string) : list string :=
  fold_left (posixpath.normpath_step (posixpath.initial_slashes q))
    (Str.split posixpath.sep_char q) [].

(** A component of a normalized absolute path. *)
Definition proper (c : string) : Prop :=
  component c /\ c <> "." /\ c <> "..".

(** What [join] puts between its arguments. *)
Definition glue (a : string) : string :=
  if String.eqb a "" || Str.endswith a "/" then "" else "/".

(** The file or database that an operation touches, when it touches one. *)
Definition event_path (ev : event) : option string :=
  match ev with
  | EvOpen p _ | EvRead p | EvWrite p _ | EvImageOpen p | EvImageSave p =>
      Some p
  | EvConnect _ p | EvExecute _ p _ | EvFetchall _ p | EvClose _ p => Some p
  | EvHttpGet _ | EvSubprocess _ | EvTranscribe _ | EvPrint _ => None
  end.

(** An operation on a path that the guard accepts, or on no path at all. *)
Definition approved (cwd : string) (ev : event) : Prop :=
  forall p, event_path ev = Some p -> B12 cwd (PStr p) = Ok true.

(** From [s] to [s']: the trace grows by approved operations and the file
    store changes at most on the paths in [F]. *)
Definition evolves (cwd : string) (F : string -> Prop) (s s' : state) : Prop :=
  (exists t, trace s' = (trace s ++ t)%list /\ Forall (approved cwd) t)
  /\ (forall q, ~ F q -> fs s' !! q = fs s !! q).

(** Every run of [m] evolves the state, and a returned value satisfies [Q]. *)
Definition triple (cwd : string) (F : string -> Prop) {A} (Q : A -> Prop)
    (m : M A) : Prop :=
  forall s, evolves cwd F s (m s).2 /\ forall a, (m s).1 = Ok a -> Q a.

(** The file that an operation opens for writing, writes or saves. *)
Definition write_target (ev : event) : option string :=
  match ev with
  | EvOpen p mode => if String.eqb mode "w" then Some p else None
  | EvWrite p _ | EvImageSave p => Some p
  | _ => None
  end.

(** Every operation that [m] adds to the trace and that opens a file for
    writing, writes or saves one, does so on the path [out]. *)
Definition writes_only (out : string) {A} (m : M A) : Prop :=
  forall s, exists t,
    trace (m s).2 = (trace s ++ t)%list
    /\ Forall (fun ev => forall p, write_target ev = Some p -> p = out) t.

(** Every operation that [m] adds to the trace is approved. *)
Definition confined (cwd : string) {A} (m : M A) : Prop :=
  forall s, exists t,
    trace (m s).2 = (trace s ++ t)%list /\ Forall (approved cwd) t.

(** A process with the credential set but no network, a failing git, a
    DuckDB that cannot open its file and a SQLite that rejects the query;
    the transcription service answers without a 'text' entry. *)
Definition offline : World (list (list Z)) (Z * Z) :=
  {| getcwd := "/srv/app";
     environ := {[ "OPENAI_API_KEY" := "sk-test" ]};
     requests_get := fun _ => Err ConnectionError;
     subprocess_run := fun _ f => (128, f);
     writable := fun path => Str.startswith path "/data/";
     connect_error := fun e _ =>
       match e with
       | Sqlite3 => None
       | DuckDB => Some (DatabaseError "cannot open")
       end;
     run_query := fun _ _ _ => Err (DatabaseError "syntax error");
     str_rows := fun _ => "[]";
     image_decode := fun _ => Ok (640, 480);
     image_resize := fun _ size => Ok size;
     image_encode := fun _ _ => Ok "image";
     transcribe := fun _ _ _ => Ok ∅;
     markdown := fun src => "<p>" +:+ src +:+ "</p>" |}.

(** A file store with one input file. *)
Definition holding (path data : string) : state :=
  {| fs := {[ path := data ]}; trace := [] |}.

(* ===================================================================== *)
(** ** Facts about the string methods *)
(* ===================================================================== *)

Lemma startswith_spec (s p : string) :
  Str.startswith s p = true <-> exists q, s = p +:+ q.
Proof.
  revert s. induction p as [|b p IH]; intros s; simpl.
  - split; [intros _; exists s; reflexivity | done].
  - destruct s as [|a s].
    + split; [done | intros [q Hq]; discriminate Hq].
    + rewrite andb_true_iff, IH. split.
      * intros [Hab [q ->]]. apply Ascii.eqb_eq in Hab as ->. by exists q.
      * intros [q Hq]. injection Hq as -> ->. split; [apply Ascii.eqb_refl | by exists q].
Qed.

Lemma endswith_cons (a : ascii) (s p : string) :
  Str.endswith (String a s) p = String.eqb (String a s) p || Str.endswith s p.
Proof. reflexivity. Qed.

Lemma endswith_spec (s p : string) :
  Str.endswith s p = true <-> exists q, s = q +:+ p.
Proof.
  induction s as [|a s IH].
  - change (Str.endswith "" p) with (String.eqb "" p || false).
    rewrite orb_false_r, String.eqb_eq. split.
    + intros <-. by exists "".
    + intros [[|c q] Hq]; [done | discriminate Hq].
  - rewrite endswith_cons, orb_true_iff, String.eqb_eq, IH. split.
    + intros [<- | [q ->]]; [by exists "" | by exists (String a q)].
    + intros [[|c q] Hq]; [by left | right].
      injection Hq as -> ->. by exists q.
Qed.

(** On a [str] argument the guard is the raw prefix test on the normalized
    absolute path. *)
Lemma B12_str (cwd s : string) :
  B12 cwd (PStr s) = Ok (Str.startswith (posixpath.abspath_str cwd s) "/data").
Proof. reflexivity. Qed.

(* ===================================================================== *)
(** ** The shape of a normalized path *)
(* ===================================================================== *)

Lemma split_sep_free (sep : ascii) (s : string) :
  Forall (fun c => contains sep c = false) (Str.split sep s).
Proof.
  induction s as [|c s IH]; simpl.
  - by constructor.
  - destruct (Ascii.eqb c sep) eqn:Hc.
    + by constructor.
    + destruct (Str.split sep s) as [|w ws].
      * constructor; [|done]. simpl. by rewrite Hc.
      * inversion IH as [|? ? Hw Hws]; subst.
        constructor; [|done]. simpl. by rewrite Hc, Hw.
Qed.

Lemma split_sep_free_word (sep : ascii) (w : string) :
  contains sep w = false -> Str.split sep w = [w].
Proof.
  induction w as [|c w IH]; simpl; [done|].
  intros [Hc Hw]%orb_false_elim. rewrite Hc, (IH Hw). done.
Qed.

Lemma split_word_sep (sep : ascii) (w s : string) :
  contains sep w = false ->
  Str.split sep (w +:+ String sep s) = w :: Str.split sep s.
Proof.
  induction w as [|c w IH]; simpl.
  - intros _. change ("" +:+ String sep s) with (String sep s).
    simpl. by rewrite Ascii.eqb_refl.
  - intros [Hc Hw]%orb_false_elim.
    change (String c w +:+ String sep s) with (String c (w +:+ String sep s)).
    simpl. by rewrite Hc, (IH Hw).
Qed.

Lemma split_join (l : list string) :
  l <> [] ->
  Forall (fun c => contains posixpath.sep_char c = false) l ->
  Str.split posixpath.sep_char (Str.join posixpath.sep l) = l.
Proof.
  induction l as [|x l IH]; [done|]. intros _ Hl.
  inversion Hl as [|? ? Hx Hl']; subst.
  destruct l as [|y l].
  - simpl. by apply split_sep_free_word.
  - change (Str.join posixpath.sep (x :: y :: l))
      with (x +:+ String posixpath.sep_char (Str.join posixpath.sep (y :: l))).
    rewrite split_word_sep by done. f_equal. by apply IH.
Qed.

Lemma split_times (k : nat) (s : string) :
  Str.split posixpath.sep_char (Str.times posixpath.sep k +:+ s)
  = (repeat "" k ++ Str.split posixpath.sep_char s)%list.
Proof.
  induction k as [|k IH]; [done|].
  change (Str.times posixpath.sep (S k) +:+ s)
    with (String posixpath.sep_char (Str.times posixpath.sep k +:+ s)).
  simpl. by rewrite IH.
Qed.

Lemma Forall_removelast {A} (P : A -> Prop) (l : list A) :
  Forall P l -> Forall P (removelast l).
Proof.
  induction 1 as [|x l Hx Hl IH]; simpl; [done|].
  destruct l; [done|]. by constructor.
Qed.

Lemma normpath_step_components (n : nat) (acc : list string) (comp : string) :
  Forall component acc ->
  contains posixpath.sep_char comp = false ->
  Forall component (posixpath.normpath_step n acc comp).
Proof.
  intros Hacc Hcomp. unfold posixpath.normpath_step.
  destruct (String.eqb_spec comp "") as [->|Hne]; simpl; [done|].
  destruct (String.eqb comp "."); simpl; [done|].
  match goal with |- context [if ?b then _ else _] => destruct b end.
  - apply Forall_app. split; [done|]. by repeat constructor.
  - destruct (negb (posixpath.is_nil acc)); [by apply Forall_removelast | done].
Qed.

Lemma normpath_loop_components (n : nat) (comps acc : list string) :
  Forall component acc ->
  Forall (fun c => contains posixpath.sep_char c = false) comps ->
  Forall component (fold_left (posixpath.normpath_step n) comps acc).
Proof.
  revert acc. induction comps as [|c comps IH]; intros acc Hacc Hcs; simpl.
  - done.
  - inversion Hcs; subst. apply IH; [|done].
    by apply normpath_step_components.
Qed.

Lemma filter_components (l : list string) :
  Forall component l ->
  List.filter (fun c => negb (String.eqb c "")) l = l.
Proof.
  induction 1 as [|x l [Hx _] Hl IH]; simpl; [done|].
  destruct (String.eqb_spec x ""); [done|]. simpl. by rewrite IH.
Qed.

Lemma filter_repeat_empty (k : nat) :
  List.filter (fun c => negb (String.eqb c "")) (repeat "" k) = [].
Proof. induction k; simpl; done. Qed.

Lemma path_segments_assembled (k : nat) (l : list string) :
  Forall component l ->
  path_segments (Str.times posixpath.sep k +:+ Str.join posixpath.sep l) = l.
Proof.
  intros Hl. unfold path_segments. rewrite split_times, List.filter_app.
  rewrite filter_repeat_empty. simpl.
  destruct l as [|x l]; [done|].
  rewrite split_join; [by apply filter_components | done |].
  eapply Forall_impl; [exact Hl|]. by intros c [_ Hc].
Qed.

Lemma initial_slashes_cases (q : string) :
  posixpath.initial_slashes q = 0%nat
  \/ posixpath.initial_slashes q = 1%nat
  \/ posixpath.initial_slashes q = 2%nat.
Proof.
  unfold posixpath.initial_slashes.
  destruct (Str.startswith q posixpath.sep); [|by left].
  destruct (_ && _); auto.
Qed.

Lemma normpath_shape (q : string) :
  exists (k : nat) (l : list string),
    (k = 0 \/ k = 1 \/ k = 2)%nat
    /\ Forall component l
    /\ (posixpath.normpath q = "."
        \/ posixpath.normpath q
           = Str.times posixpath.sep k +:+ Str.join posixpath.sep l).
Proof.
  exists (posixpath.initial_slashes q),
    (fold_left (posixpath.normpath_step (posixpath.initial_slashes q))
       (Str.split posixpath.sep_char q) []).
  split; [apply initial_slashes_cases|]. split.
  - apply normpath_loop_components; [done | apply split_sep_free].
  - unfold posixpath.normpath.
    destruct (String.eqb q ""); [by left|].
    match goal with |- context [if ?b then _ else _] => destruct b end;
      [by left | by right].
Qed.

(** X1: the guard never rejects a path that lies inside the root: when the
    normalized absolute form has a single leading slash and its segments
    begin with the segment 'data', the guard accepts. *)
Lemma guard_spec_sound (cwd p : string) :
  guard_spec cwd p = true ->
  Str.startswith (posixpath.abspath_str cwd p) "/" = true ->
  Str.startswith (posixpath.abspath_str cwd p) "//" = false ->
  B12 cwd (PStr p) = Ok true.
Proof.
  rewrite B12_str. unfold guard_spec, posixpath.abspath_str.
  set (q := if negb _ then _ else _).
  destruct (normpath_shape q) as (k & l & Hk & Hl & [-> | ->]).
  { intros Hspec. discriminate Hspec. }
  rewrite path_segments_assembled by done.
  intros [rest ->]%bool_decide_eq_true Habs Hdouble. f_equal.
  destruct Hk as [-> | [-> | ->]]; destruct rest; done.
Qed.

(** With two leading slashes the guard rejects a path that the segment-wise
    test accepts. *)
Example B12_double_slash (cwd : string) :
  B12 cwd (PStr "//data/x") = Ok false /\ guard_spec cwd "//data/x" = true.
Proof. split; reflexivity. Qed.

Example B12_data_file : B12 "/home/u" (PStr "/data/a.txt") = Ok true.
Proof. reflexivity. Qed.

Example B12_relative_in : B12 "/data/work" (PStr "../x/./y") = Ok true.
Proof. reflexivity. Qed.

Example B12_relative_out : B12 "/data" (PStr "../x") = Ok false.
Proof. reflexivity. Qed.

Example B12_none : B12 "/data" PNone = Err TypeError.
Proof. reflexivity. Qed.

Example normpath_examples :
  posixpath.normpath "//a//b/../c/." = "//a/c"
  /\ posixpath.normpath "///a/../.." = "/"
  /\ posixpath.normpath "a/../.." = ".."
  /\ posixpath.normpath "./" = ".".
Proof. repeat split. Qed.

(* ===================================================================== *)
(** ** The guard on concrete paths *)
(* ===================================================================== *)

(** C1: the guard should hold exactly when the normalized path's segments
    begin with the segments of the root '/data'.  At the absolute path
    '/database' the code answers true, whatever the working directory,
    while the segment-wise test answers false: the code compares raw
    strings. *)
Theorem B12_differs_from_segment_test (cwd : string) :
  B12 cwd (PStr "/database") = Ok true
  /\ guard_spec cwd "/database" = false.
Proof. split; reflexivity. Qed.

(** C2: the guard accepts the root '/data' itself, and it also accepts
    the sibling '/database', which the specification wants rejected. *)
Theorem B12_root_and_sibling (cwd : string) :
  B12 cwd (PStr "/data") = Ok true
  /\ B12 cwd (PStr "/database") = Ok true.
Proof. split; reflexivity. Qed.

(** C4: the traversal path '/data/../etc/passwd' is rejected in every
    working directory, because the '..' segment is resolved before the
    prefix test. *)
Theorem B12_rejects_dotdot_traversal (cwd : string) :
  posixpath.abspath_str cwd "/data/../etc/passwd" = "/etc/passwd"
  /\ B12 cwd (PStr "/data/../etc/passwd") = Ok false.
Proof. split; reflexivity. Qed.

(** C10: on a relative path the answer of the guard depends on the working
    directory: the same relative path is accepted from '/data' and
    rejected from '/home/user', so no function of the path alone gives the
    guard's answer. *)
Theorem B12_depends_on_cwd :
  (exists p cwd1 cwd2,
      Str.startswith p "/" = false
      /\ Str.startswith cwd1 "/data" = true
      /\ Str.startswith cwd2 "/data" = false
      /\ B12 cwd1 (PStr p) = Ok true
      /\ B12 cwd2 (PStr p) = Ok false)
  /\ ~ (exists f : string -> bool, forall cwd p, B12 cwd (PStr p) = Ok (f p)).
Proof.
  split.
  - exists "notes.txt", "/data", "/home/user". repeat split.
  - intros [f Hf].
    pose proof (Hf "/data" "notes.txt") as H1.
    pose proof (Hf "/home/user" "notes.txt") as H2.
    vm_compute in H1, H2. congruence.
Qed.

(** With a working directory the explicit guard is the guard [B12]. *)
Lemma B12_in_cwd (cwd : string) (o : pyobj) :
  B12_in (Some cwd) o = B12 cwd o.
Proof.
  destruct o as [s|b|n|]; try reflexivity;
    unfold B12_in, B12, abspath_in, abspath_text, posixpath.abspath,
      posixpath.abspath_str;
    by destruct (Str.startswith _ posixpath.sep).
Qed.

(** C9, counterexample: in a process whose working directory has been
    removed the guard raises [FileNotFoundError] on the relative path
    'notes.txt'; and the string '/data/' followed by a NUL character is
    malformed, yet the guard answers true for it. *)
Lemma B12_raises_and_accepts_malformed :
  B12_in None (PStr "notes.txt") = Err (FileNotFoundError "")
  /\ malformed ("/data/" +:+ String "000"%char "") = true
  /\ B12_in (Some "/") (PStr ("/data/" +:+ String "000"%char "")) = Ok true.
Proof. repeat split. Qed.

(** C9, amended: on a [str] argument the guard returns a boolean and raises
    nothing when the path is absolute or the working directory exists; on a
    relative path in a process whose working directory has been removed it
    raises [FileNotFoundError].  With a working directory the boolean is
    the prefix test alone: no string is rejected for being malformed. *)
Theorem B12_in_total_on_str (wd : option string) (s : string) :
  (Str.startswith s "/" = true \/ wd <> None ->
   exists b, B12_in wd (PStr s) = Ok b)
  /\ (Str.startswith s "/" = false -> wd = None ->
      B12_in wd (PStr s) = Err (FileNotFoundError ""))
  /\ (forall cwd, wd = Some cwd ->
      B12_in wd (PStr s)
      = Ok (Str.startswith (posixpath.abspath_str cwd s) "/data")).
Proof.
  split; [|split].
  - intros [Habs | Hwd].
    + unfold B12_in, abspath_in, abspath_text, posixpath.sep.
      rewrite Habs. simpl. by eexists.
    + destruct wd as [cwd|]; [|done].
      rewrite B12_in_cwd, B12_str. by eexists.
  - intros Hrel ->.
    unfold B12_in, abspath_in, abspath_text, posixpath.sep.
    by rewrite Hrel.
  - intros cwd ->. by rewrite B12_in_cwd, B12_str.
Qed.

(* ===================================================================== *)
(** ** Running the tasks *)
(* ===================================================================== *)

Lemma bind_ok {A B} (m : M A) (k : A -> M B) (s s' : state) (a : A) :
  m s = (Ok a, s') -> bind m k s = k a s'.
Proof. intros H. unfold bind. rewrite H. reflexivity. Qed.

(** Unfold the primitives of the monad and of the world. *)
Ltac unfold_prims :=
  unfold http_get, raise_for_status, open_w, file_write, open_r, file_read,
    subprocess_run_check, connect, execute, fetchall, close, image_open,
    image_save, audio_transcribe, print, emit, get_fs, put_fs, lift, bind,
    ret, raise in *.

(** Rewrite with the equations among the hypotheses, then compute. *)
Ltac use_facts :=
  repeat match goal with
         | H : ?l = _ |- context [?l] => rewrite H; simpl
         end.

(** Bring a final state to its normal form. *)
Ltac tidy_state :=
  rewrite <- ?app_assoc; simpl;
  rewrite ?lookup_insert_eq; simpl;
  rewrite ?insert_insert_eq.

Section TaskFacts.

Context {rows image : Type}.
Variable W : World rows image.

Local Abbreviation allowed p := (B12 (getcwd W) (PStr p) = Ok true).
Local Abbreviation denied p := (B12 (getcwd W) (PStr p) = Ok false).

Lemma guard_run (p : string) (b : bool) (s : state) :
  B12 (getcwd W) (PStr p) = Ok b -> guard W p s = (Ok b, s).
Proof. intros H. unfold guard. rewrite H. reflexivity. Qed.


Lemma gate_allowed (a b : string) (s : state) :
  allowed a -> allowed b ->
  por (ok <- guard W a ;; ret (negb ok))
      (ok <- guard W b ;; ret (negb ok)) s = (Ok false, s).
Proof.
  intros Ha Hb. unfold por.
  rewrite (bind_ok _ _ s s false).
  - rewrite (bind_ok _ _ _ _ _ (guard_run b true s Hb)). reflexivity.
  - rewrite (bind_ok _ _ _ _ _ (guard_run a true s Ha)). reflexivity.
Qed.

(** *** The authorization gate of each task *)









(** *** [B3] and [B6]: the two HTTP tasks *)

(** [B3] on a response that [raise_for_status] rejects. *)
Lemma B3_run_failure (url save_path : string) (r : response) (s : state) :
  allowed save_path ->
  requests_get W url = Ok r ->
  http_failure r = true ->
  B3 W url save_path s
  = (Err (HTTPError (status_code r)),
     {| fs := fs s; trace := trace s ++ [EvHttpGet url] |}).
Proof.
  intros Hg Hr Hst. unfold B3.
  rewrite (bind_ok _ _ _ _ _ (guard_run _ _ s Hg)); simpl.
  unfold_prims; use_facts; reflexivity.
Qed.

(** [B3] on a response that [raise_for_status] lets through. *)
Lemma B3_run_success (url save_path : string) (r : response) (s : state) :
  allowed save_path ->
  requests_get W url = Ok r ->
  http_failure r = false ->
  writable W save_path = true ->
  B3 W url save_path s
  = (Ok tt,
     {| fs := <[save_path := text r]> (fs s);
        trace := trace s ++
          [EvHttpGet url; EvOpen save_path "w";
           EvWrite save_path (text r);
           EvPrint ("Data fetched from " +:+ url +:+ " and saved to "
                    +:+ save_path)] |}).
Proof.
  intros Hg Hr Hst Hw. unfold B3.
  rewrite (bind_ok _ _ _ _ _ (guard_run _ _ s Hg)); simpl.
  unfold_prims; use_facts; tidy_state; reflexivity.
Qed.

(** C8: with a save path inside the sandbox, [B3] raises [HTTPError] on a
    response with a 4xx or 5xx status, after the request alone and with the
    file store untouched; on any other response, when the file can be
    opened for writing, it ends normally and the file at [save_path] holds
    exactly the response text. *)
Theorem B3_fetch (url save_path : string) (r : response) (s : state) :
  allowed save_path ->
  requests_get W url = Ok r ->
  (http_failure r = true ->
   B3 W url save_path s
   = (Err (HTTPError (status_code r)),
      {| fs := fs s; trace := trace s ++ [EvHttpGet url] |}))
  /\ (http_failure r = false ->
      writable W save_path = true ->
      B3 W url save_path s
      = (Ok tt,
         {| fs := <[save_path := text r]> (fs s);
            trace := trace s ++
              [EvHttpGet url; EvOpen save_path "w";
               EvWrite save_path (text r);
               EvPrint ("Data fetched from " +:+ url +:+ " and saved to "
                        +:+ save_path)] |})).
Proof.
  intros Hg Hr. split.
  - by apply B3_run_failure.
  - by apply B3_run_success.
Qed.

(** [B6] never looks at the status of the response. *)
Lemma B6_run (url output_filename : string) (r : response) (s : state) :
  allowed output_filename ->
  requests_get W url = Ok r ->
  writable W output_filename = true ->
  B6 W url output_filename s
  = (Ok tt,
     {| fs := <[output_filename := text r]> (fs s);
        trace := trace s ++
          [EvHttpGet url; EvOpen output_filename "w";
           EvWrite output_filename (text r);
           EvPrint ("Web content from " +:+ url +:+ " written to "
                    +:+ output_filename)] |}).
Proof.
  intros Hg Hr Hw. unfold B6.
  rewrite (bind_ok _ _ _ _ _ (guard_run _ _ s Hg)); simpl.
  unfold_prims; use_facts; tidy_state; reflexivity.
Qed.

(** *** [B5]: the database engine *)

(** C6: with both paths inside the sandbox, [B5] connects with [sqlite3]
    exactly when [db_path] ends in '.db' and with [duckdb] otherwise; the
    connection is the first operation of the task and the only connection
    it makes.  When the connection, the query and the opening of the output
    file succeed, the task writes the rendered rows and returns the rows
    themselves. *)
Theorem B5_engine_by_suffix (db_path query output_filename : string)
    (s : state) :
  allowed db_path ->
  allowed output_filename ->
  let e := if Str.endswith db_path ".db" then Sqlite3 else DuckDB in
  (e = Sqlite3 <-> exists stem, db_path = stem +:+ ".db")
  /\ (exists rest,
        trace (B5 W db_path query output_filename s).2
        = (trace s ++ EvConnect e db_path :: rest)%list
        /\ forall e' p, EvConnect e' p ∉ rest)
  /\ (forall rs,
        connect_error W e db_path = None ->
        run_query W e db_path query = Ok rs ->
        writable W output_filename = true ->
        B5 W db_path query output_filename s
        = (Ok rs,
           {| fs := <[output_filename := str_rows W rs]> (fs s);
              trace := trace s ++
                [EvConnect e db_path; EvExecute e db_path query;
                 EvFetchall e db_path; EvClose e db_path;
                 EvOpen output_filename "w";
                 EvWrite output_filename (str_rows W rs);
                 EvPrint ("SQL query executed on " +:+ db_path
                          +:+ " and results written to "
                          +:+ output_filename)] |})).
Proof.
  intros Ha Hb e.
  assert (Hrun : B5 W db_path query output_filename s
                 = (conn <- connect W e db_path ;;
                    cur <- execute W conn query ;;
                    result <- fetchall conn cur ;;
                    close conn ;;
                    open_w W output_filename ;;
                    file_write output_filename (str_rows W result) ;;
                    print ("SQL query executed on " +:+ db_path
                           +:+ " and results written to "
                           +:+ output_filename) ;;
                    ret result) s).
  { unfold B5. rewrite (bind_ok _ _ _ _ _ (gate_allowed _ _ s Ha Hb)).
    subst e. by destruct (Str.endswith db_path ".db"). }
  rewrite Hrun. clear Hrun. split; [|split].
  - subst e. rewrite <- endswith_spec.
    destruct (Str.endswith db_path ".db"); split; congruence.
  - unfold_prims; simpl.
    destruct (connect_error W e db_path) as [ex|]; simpl.
    { exists []. split; [reflexivity | intros ? ?; apply not_elem_of_nil]. }
    destruct (run_query W e db_path query) as [rs|ex]; simpl;
      [destruct (writable W output_filename); simpl|].
    all: eexists; rewrite <- ?app_assoc; split; [reflexivity|];
      intros ? ?; simpl; rewrite ?not_elem_of_cons; repeat split;
      solve [discriminate | apply not_elem_of_nil].
  - intros rs Hc Hq Hw.
    unfold_prims; use_facts; tidy_state; reflexivity.
Qed.

(** *** [B8]: the credential *)

(** C7: with both paths inside the sandbox and no 'OPENAI_API_KEY' in the
    environment, [B8] raises [ValueError] and leaves the state as it was:
    the audio file has been neither opened nor read. *)
Theorem B8_requires_credential (audio_path output_path : string) (s : state) :
  allowed audio_path ->
  allowed output_path ->
  environ W !! "OPENAI_API_KEY" = None ->
  B8 W audio_path output_path s
  = (Err (ValueError
            "OPENAI_API_KEY is not set in the environment variables."), s).
Proof.
  intros Ha Hb Hkey. unfold B8.
  rewrite (bind_ok _ _ _ _ _ (gate_allowed _ _ s Ha Hb)).
  rewrite Hkey. reflexivity.
Qed.

End TaskFacts.

(** C5: [B6] should raise on a failed response instead of writing its body.
    Whatever the response, a 404 included, [B6] ends normally with the body
    of the response in the output file; on the same 404 response the
    sibling task [B3] raises [HTTPError] and writes nothing. *)
Theorem B6_saves_failed_response :
  (forall r : response,
      B6 (serving r) "http://site.test/page" "/data/page.html" start
      = (Ok tt,
         {| fs := <["/data/page.html" := text r]> ∅;
            trace :=
              [EvHttpGet "http://site.test/page";
               EvOpen "/data/page.html" "w";
               EvWrite "/data/page.html" (text r);
               EvPrint ("Web content from http://site.test/page written to "
                        +:+ "/data/page.html")] |}))
  /\ http_failure not_found = true
  /\ (B6 (serving not_found) "http://site.test/page" "/data/page.html" start).1
     = Ok tt
  /\ fs (B6 (serving not_found) "http://site.test/page" "/data/page.html"
           start).2 !! "/data/page.html" = Some "Not Found"
  /\ B3 (serving not_found) "http://site.test/page" "/data/page.html" start
     = (Err (HTTPError 404),
        {| fs := ∅; trace := [EvHttpGet "http://site.test/page"] |}).
Proof.
  assert (Hrun : forall r : response,
             B6 (serving r) "http://site.test/page" "/data/page.html" start
             = (Ok tt,
                {| fs := <["/data/page.html" := text r]> ∅;
                   trace :=
                     [EvHttpGet "http://site.test/page";
                      EvOpen "/data/page.html" "w";
                      EvWrite "/data/page.html" (text r);
                      EvPrint
                        ("Web content from http://site.test/page written to "
                         +:+ "/data/page.html")] |})).
  { intros r. by rewrite (B6_run (serving r) _ _ r start). }
  split; [exact Hrun|]. rewrite (Hrun not_found). simpl.
  split; [reflexivity|]. split; [reflexivity|].
  split; [apply lookup_insert_eq|].
  by apply (B3_run_failure (serving not_found) _ _ not_found start).
Qed.

(* ===================================================================== *)
(** ** The theorems at concrete inputs *)
(* ===================================================================== *)


Lemma B3_fetch_witness :
  B3 (serving not_found) "http://site.test/page" "/data/page.html" start
  = (Err (HTTPError 404),
     {| fs := ∅; trace := [EvHttpGet "http://site.test/page"] |})
  /\ B3 (serving found) "http://site.test/page" "/data/page.html" start
     = (Ok tt,
        {| fs := <["/data/page.html" := "hello"]> ∅;
           trace :=
             [EvHttpGet "http://site.test/page";
              EvOpen "/data/page.html" "w";
              EvWrite "/data/page.html" "hello";
              EvPrint ("Data fetched from http://site.test/page"
                       +:+ " and saved to /data/page.html")] |}).
Proof.
  split.
  - apply (B3_fetch (serving not_found) "http://site.test/page"
             "/data/page.html" not_found start); reflexivity.
  - apply (B3_fetch (serving found) "http://site.test/page"
             "/data/page.html" found start); reflexivity.
Defined.

Lemma B5_engine_by_suffix_witness :
  B5 (serving found) "/data/foo.db" "SELECT 1" "/data/out.txt" start
  = (Ok [[1]; [2]],
     {| fs := <["/data/out.txt" := "[(1,), (2,)]"]> ∅;
        trace :=
          [EvConnect Sqlite3 "/data/foo.db";
           EvExecute Sqlite3 "/data/foo.db" "SELECT 1";
           EvFetchall Sqlite3 "/data/foo.db"; EvClose Sqlite3 "/data/foo.db";
           EvOpen "/data/out.txt" "w";
           EvWrite "/data/out.txt" "[(1,), (2,)]";
           EvPrint ("SQL query executed on /data/foo.db"
                    +:+ " and results written to /data/out.txt")] |})
  /\ B5 (serving found) "/data/foo.duckdb" "SELECT 1" "/data/out.txt" start
     = (Ok [[1]; [2]],
        {| fs := <["/data/out.txt" := "[(1,), (2,)]"]> ∅;
           trace :=
             [EvConnect DuckDB "/data/foo.duckdb";
              EvExecute DuckDB "/data/foo.duckdb" "SELECT 1";
              EvFetchall DuckDB "/data/foo.duckdb";
              EvClose DuckDB "/data/foo.duckdb";
              EvOpen "/data/out.txt" "w";
              EvWrite "/data/out.txt" "[(1,), (2,)]";
              EvPrint ("SQL query executed on /data/foo.duckdb"
                       +:+ " and results written to /data/out.txt")] |}).
Proof.
  split.
  - apply (B5_engine_by_suffix (serving found) "/data/foo.db" "SELECT 1"
             "/data/out.txt" start); reflexivity.
  - apply (B5_engine_by_suffix (serving found) "/data/foo.duckdb" "SELECT 1"
             "/data/out.txt" start); reflexivity.
Defined.

Lemma B8_requires_credential_witness :
  environ (serving found) !! "OPENAI_API_KEY" = None
  /\ B8 (serving found) "/data/talk.mp3" "/data/talk.txt" start
     = (Err (ValueError
               "OPENAI_API_KEY is not set in the environment variables."),
        start).
Proof.
  split; [reflexivity|].
  apply (B8_requires_credential (serving found)); reflexivity.
Defined.

Lemma B12_in_total_on_str_witness :
  (exists b, B12_in None (PStr "/data/x") = Ok b)
  /\ B12_in None (PStr "x") = Err (FileNotFoundError "")
  /\ B12_in (Some "/data") (PStr "")
     = Ok (Str.startswith (posixpath.abspath_str "/data" "") "/data").
Proof.
  destruct (B12_in_total_on_str None "/data/x") as (H1 & _ & _).
  destruct (B12_in_total_on_str None "x") as (_ & H2 & _).
  destruct (B12_in_total_on_str (Some "/data") "") as (_ & _ & H3).
  split; [apply H1; left; reflexivity|].
  split; [apply H2; reflexivity | apply (H3 "/data"); reflexivity].
Defined.

(* ===================================================================== *)
(** ** More on the guard: what it accepts *)
(* ===================================================================== *)

Lemma normpath_eq (q : string) :
  q <> "" ->
  posixpath.normpath q
  = (if String.eqb (Str.times posixpath.sep (posixpath.initial_slashes q)
                    +:+ Str.join posixpath.sep (normpath_comps q)) ""
     then "."
     else Str.times posixpath.sep (posixpath.initial_slashes q)
          +:+ Str.join posixpath.sep (normpath_comps q)).
Proof.
  intros Hq. unfold posixpath.normpath.
  by destruct (String.eqb_spec q "").
Qed.

Lemma normpath_comps_components (q : string) :
  Forall component (normpath_comps q).
Proof. apply normpath_loop_components; [done | apply split_sep_free]. Qed.

Lemma last_Forall {A} (P : A -> Prop) (l : list A) (d : A) :
  l <> [] -> Forall P l -> P (List.last l d).
Proof.
  induction l as [|x l IH]; [done|]. intros _ Hl.
  inversion Hl as [|? ? Hx Hl']; subst.
  destruct l as [|y l]; [done|]. by apply IH.
Qed.

Lemma normpath_step_proper (n : nat) (acc : list string) (comp : string) :
  n <> 0%nat ->
  Forall proper acc ->
  contains posixpath.sep_char comp = false ->
  Forall proper (posixpath.normpath_step n acc comp).
Proof.
  intros Hn Hacc Hcomp. unfold posixpath.normpath_step.
  destruct (String.eqb_spec comp "") as [->|Hne]; simpl; [done|].
  destruct (String.eqb_spec comp ".") as [->|Hdot]; simpl; [done|].
  destruct (String.eqb_spec comp "..") as [->|Hdd]; simpl.
  - destruct (Nat.eqb_spec n 0) as [|_]; [done|]. simpl.
    destruct acc as [|a acc]; [done|].
    assert (Hlast : proper (List.last (a :: acc) "")) by by apply last_Forall.
    destruct (String.eqb_spec (List.last (a :: acc) "") "..") as [Heq|_].
    + by destruct Hlast as (_ & _ & Hlast).
    + cbn [posixpath.is_nil negb andb]. by apply Forall_removelast.
  - apply Forall_app. split; [done|]. by repeat constructor.
Qed.

Lemma normpath_loop_proper (n : nat) (comps acc : list string) :
  n <> 0%nat ->
  Forall proper acc ->
  Forall (fun c => contains posixpath.sep_char c = false) comps ->
  Forall proper (fold_left (posixpath.normpath_step n) comps acc).
Proof.
  intros Hn. revert acc.
  induction comps as [|c comps IH]; intros acc Hacc Hcs; simpl; [done|].
  inversion Hcs; subst. apply IH; [|done]. by apply normpath_step_proper.
Qed.

Lemma component_head (x : string) (r : list string) :
  component x ->
  exists c t, c <> posixpath.sep_char
              /\ Str.join posixpath.sep (x :: r) = String c t.
Proof.
  intros [Hne Hsep]. destruct x as [|c x]; [done|].
  simpl in Hsep. apply orb_false_elim in Hsep as [Hc _].
  exists c. destruct r as [|y r]; eexists; (split; [|reflexivity]);
    by intros ->; rewrite Ascii.eqb_refl in Hc.
Qed.

Lemma startswith_cons (a : ascii) (s : string) (b : ascii) (p : string) :
  Str.startswith (String a s) (String b p)
  = Ascii.eqb a b && Str.startswith s p.
Proof. reflexivity. Qed.

Lemma startswith_word_sep (x y p : string) :
  contains posixpath.sep_char p = false ->
  Str.startswith (x +:+ String posixpath.sep_char y) p = Str.startswith x p.
Proof.
  unfold posixpath.sep_char.
  revert x. induction p as [|b p IH]; intros x Hp; [done|].
  simpl in Hp. apply orb_false_elim in Hp as [Hb Hp].
  destruct x as [|a x].
  - change ("" +:+ String "/" y) with (String "/" y).
    cbn [Str.startswith]. rewrite Ascii.eqb_sym in Hb. by rewrite Hb.
  - change (String a x +:+ String "/" y) with (String a (x +:+ String "/" y)).
    cbn [Str.startswith]. by rewrite IH.
Qed.

Lemma startswith_join_head (x : string) (r : list string) (p : string) :
  contains posixpath.sep_char p = false ->
  Str.startswith (Str.join posixpath.sep (x :: r)) p = Str.startswith x p.
Proof.
  intros Hp. destruct r as [|y r]; [done|].
  change (Str.join posixpath.sep (x :: y :: r))
    with (x +:+ String posixpath.sep_char (Str.join posixpath.sep (y :: r))).
  by apply startswith_word_sep.
Qed.

(** X2: the guard accepts a path exactly when its normalized absolute form
    has a single leading slash and a first segment that begins with the
    characters 'data'. *)
Theorem B12_accepts_iff_first_segment (cwd p : string) :
  B12 cwd (PStr p) = Ok true
  <-> Str.startswith (posixpath.abspath_str cwd p) "/" = true
      /\ Str.startswith (posixpath.abspath_str cwd p) "//" = false
      /\ exists first rest,
           path_segments (posixpath.abspath_str cwd p) = first :: rest
           /\ Str.startswith first "data" = true.
Proof.
  rewrite B12_str. unfold posixpath.abspath_str.
  set (q := if negb _ then _ else _).
  destruct (normpath_shape q) as (k & l & Hk & Hl & [-> | ->]).
  { split; [intros [=] | intros [[=] _]]. }
  rewrite path_segments_assembled by done.
  destruct l as [|x r].
  { destruct Hk as [-> | [-> | ->]];
      (split; [intros [=] | intros (H1 & H2 & first & rest & [=] & _)]);
      try discriminate. }
  inversion Hl as [|? ? Hx Hr]; subst.
  destruct (component_head x r Hx) as (c & t & Hc & Hjoin).
  destruct Hk as [-> | [-> | ->]].
  - change (Str.times posixpath.sep 0 +:+ Str.join posixpath.sep (x :: r))
      with (Str.join posixpath.sep (x :: r)).
    rewrite Hjoin. simpl.
    destruct (Ascii.eqb_spec c "/"); [done|]. simpl.
    split; [intros [=] | intros [[=] _]].
  - change (Str.times posixpath.sep 1 +:+ Str.join posixpath.sep (x :: r))
      with (String "/" (Str.join posixpath.sep (x :: r))).
    rewrite (startswith_cons _ _ _ "data"), (startswith_cons _ _ _ "").
    rewrite (startswith_cons _ _ _ "/"), Ascii.eqb_refl. cbn [andb].
    rewrite (startswith_join_head x r "data") by done.
    rewrite Hjoin, (startswith_cons _ _ _ "").
    destruct (Ascii.eqb_spec c "/"); [done|]. cbn [andb].
    split.
    + intros [= Hd]. repeat split; [done..|]. by exists x, r.
    + intros (_ & _ & first & rest & [= <- <-] & Hd). by rewrite Hd.
  - change (Str.times posixpath.sep 2 +:+ Str.join posixpath.sep (x :: r))
      with (String "/" (String "/" (Str.join posixpath.sep (x :: r)))).
    simpl. split; [intros [=] | intros (_ & [=] & _)].
Qed.

Lemma append_assoc (a b c : string) : (a +:+ b) +:+ c = a +:+ (b +:+ c).
Proof.
  induction a as [|x a IH]; [done|].
  change (String x a +:+ b) with (String x (a +:+ b)).
  change (String x (a +:+ b) +:+ c) with (String x ((a +:+ b) +:+ c)).
  by rewrite IH.
Qed.

Lemma append_nil_r (a : string) : a +:+ "" = a.
Proof.
  induction a as [|x a IH]; [done|].
  change (String x a +:+ "") with (String x (a +:+ "")). by rewrite IH.
Qed.

Lemma startswith_app (q t p : string) :
  Str.startswith q p = true -> Str.startswith (q +:+ t) p = true.
Proof.
  intros [r ->]%startswith_spec. apply startswith_spec.
  exists (r +:+ t). apply append_assoc.
Qed.

Lemma endswith_app (x b p : string) :
  b <> "" -> p <> "" ->
  String.length p = 1%nat ->
  Str.endswith (x +:+ b) p = Str.endswith b p.
Proof.
  intros Hb Hp Hlen. induction x as [|a x IH]; [done|].
  change (String a x +:+ b) with (String a (x +:+ b)).
  rewrite endswith_cons, IH.
  destruct (String.eqb_spec (String a (x +:+ b)) p) as [Heq|]; [|done].
  subst p. simpl in Hlen. injection Hlen as Hlen.
  destruct x; [by destruct b|done].
Qed.

Lemma endswith_sep_r (a : string) : Str.endswith (a +:+ "/") "/" = true.
Proof. apply endswith_spec. by exists a. Qed.

Lemma split_nonnil (sep : ascii) (s : string) : Str.split sep s <> [].
Proof.
  destruct s as [|c s]; simpl; [done|].
  destruct (Ascii.eqb c sep); [done|]. by destruct (Str.split sep s).
Qed.

Lemma split_app_sep (sep : ascii) (q r : string) :
  Str.split sep (q +:+ String sep r)
  = (Str.split sep q ++ Str.split sep r)%list.
Proof.
  induction q as [|c q IH].
  - change ("" +:+ String sep r) with (String sep r).
    simpl. by rewrite Ascii.eqb_refl.
  - change (String c q +:+ String sep r) with (String c (q +:+ String sep r)).
    simpl. rewrite IH. destruct (Ascii.eqb c sep); [done|].
    pose proof (split_nonnil sep q). by destruct (Str.split sep q).
Qed.

(** The two shapes of [join a b] for a relative [b]. *)
Lemma join_relative (a b : string) :
  Str.startswith b "/" = false ->
  (posixpath.join a b = a +:+ b /\ (a = "" \/ Str.endswith a "/" = true))
  \/ (posixpath.join a b = a +:+ String "/" b
      /\ a <> "" /\ Str.endswith a "/" = false).
Proof.
  intros Hb. unfold posixpath.join, posixpath.sep. rewrite Hb.
  destruct (String.eqb_spec a "") as [->|Ha]; simpl.
  - left. auto.
  - destruct (Str.endswith a "/"); [left | right]; auto.
Qed.

Lemma proper_relative (name : string) :
  proper name ->
  exists c t, name = String c t /\ c <> "/"%char
              /\ Str.startswith name "/" = false.
Proof.
  intros [[Hne Hsep] _]. destruct name as [|c t]; [done|].
  unfold posixpath.sep_char in Hsep.
  simpl in Hsep. apply orb_false_elim in Hsep as [Hc _].
  exists c, t. split; [done|]. split.
  - intros ->. by rewrite Ascii.eqb_refl in Hc.
  - by rewrite (startswith_cons _ _ _ ""), Hc.
Qed.

Lemma join_relative_relative (d name : string) :
  Str.startswith d "/" = false -> proper name ->
  Str.startswith (posixpath.join d name) "/" = false.
Proof.
  intros Hd Hname.
  destruct (proper_relative name Hname) as (c & t & -> & Hc & Hrel).
  destruct d as [|a d].
  - destruct (join_relative "" (String c t) Hrel) as [[-> _] | [_ [? _]]];
      done.
  - rewrite (startswith_cons _ _ _ "") in Hd.
    destruct (join_relative (String a d) (String c t) Hrel)
      as [[-> _] | [-> _]].
    + change (String a d +:+ String c t) with (String a (d +:+ String c t)).
      by rewrite (startswith_cons _ _ _ "").
    + change (String a d +:+ String "/" (String c t))
        with (String a (d +:+ String "/" (String c t))).
      by rewrite (startswith_cons _ _ _ "").
Qed.

Lemma join_glue (a b : string) :
  Str.startswith b "/" = false -> posixpath.join a b = a +:+ glue a +:+ b.
Proof.
  intros Hb. unfold posixpath.join, posixpath.sep, glue. rewrite Hb.
  by destruct (String.eqb a "" || Str.endswith a "/").
Qed.

Lemma append_eq_nil (a b : string) : a +:+ b = "" -> b = "".
Proof. by destruct a. Qed.

Lemma glue_app (a b : string) : glue (a +:+ glue a +:+ b) = glue b.
Proof.
  destruct (String.eqb_spec b "") as [->|Hb].
  - rewrite append_nil_r. unfold glue at 2.
    destruct (String.eqb_spec a "") as [->|Ha]; [done|]. simpl.
    destruct (Str.endswith a "/") eqn:He.
    + rewrite append_nil_r. unfold glue. by rewrite He, orb_true_r.
    + unfold glue. by rewrite endswith_sep_r, orb_true_r.
  - rewrite <- append_assoc. unfold glue at 1 3.
    rewrite (endswith_app _ b "/") by done.
    destruct (String.eqb_spec ((a +:+ glue a) +:+ b) "") as [He|_].
    + by apply append_eq_nil in He.
    + by destruct (String.eqb_spec b "").
Qed.

Lemma join_assoc (a b c : string) :
  Str.startswith b "/" = false -> proper c ->
  posixpath.join a (posixpath.join b c) = posixpath.join (posixpath.join a b) c.
Proof.
  intros Hb Hc.
  pose proof (join_relative_relative b c Hb Hc) as Hbc.
  destruct (proper_relative c Hc) as (x & t & _ & _ & Hrel).
  rewrite (join_glue a (posixpath.join b c)) by done.
  rewrite (join_glue (posixpath.join a b) c) by done.
  rewrite (join_glue a b), (join_glue b c) by done.
  by rewrite glue_app, !append_assoc.
Qed.

Lemma normpath_step_proper_name (n : nat) (acc : list string) (name : string) :
  proper name -> posixpath.normpath_step n acc name = (acc ++ [name])%list.
Proof.
  intros [[Hne _] [Hdot Hdd]]. unfold posixpath.normpath_step.
  destruct (String.eqb_spec name ""); [done|].
  destruct (String.eqb_spec name "."); [done|].
  by destruct (String.eqb_spec name "..").
Qed.

Lemma normpath_loop_join (n : nat) (q name : string) :
  q <> "" -> proper name ->
  fold_left (posixpath.normpath_step n)
    (Str.split posixpath.sep_char (posixpath.join q name)) []
  = (fold_left (posixpath.normpath_step n)
       (Str.split posixpath.sep_char q) [] ++ [name])%list.
Proof.
  intros Hq Hname.
  destruct (proper_relative name Hname) as (c & t & _ & _ & Hrel).
  assert (Hword : Str.split posixpath.sep_char name = [name]).
  { apply split_sep_free_word. by destruct Hname as [[_ ?] _]. }
  rewrite join_glue by done. unfold glue.
  destruct (String.eqb_spec q ""); [done|]. simpl.
  destruct (Str.endswith q "/") eqn:He.
  - apply endswith_spec in He as [q0 ->].
    change ("" +:+ name) with name.
    rewrite append_assoc. change ("/" +:+ name) with (String "/" name).
    change (q0 +:+ "/") with (q0 +:+ String posixpath.sep_char "").
    change (String "/" name) with (String posixpath.sep_char name).
    rewrite !split_app_sep, !fold_left_app, Hword. simpl.
    by apply normpath_step_proper_name.
  - change ("/" +:+ name) with (String posixpath.sep_char name).
    rewrite split_app_sep, fold_left_app, Hword. simpl.
    by apply normpath_step_proper_name.
Qed.

Lemma initial_slashes_join (q name : string) :
  posixpath.initial_slashes q = 1%nat -> proper name ->
  posixpath.initial_slashes (posixpath.join q name) = 1%nat.
Proof.
  intros Hq Hname.
  destruct (proper_relative name Hname) as (c & t & _ & _ & Hrel).
  rewrite join_glue by done.
  unfold posixpath.initial_slashes, posixpath.sep in *.
  change (Str.times "/" 2) with "//" in *.
  change (Str.times "/" 3) with "///" in *.
  destruct (Str.startswith q "/") eqn:H1; [|done].
  rewrite (startswith_app q _ "/" H1).
  destruct (Str.startswith q "///") eqn:H3.
  { by rewrite (startswith_app q _ "///" H3), andb_false_r. }
  destruct (Str.startswith q "//") eqn:H2; [done|].
  assert (Str.startswith (q +:+ glue q +:+ name) "//" = false) as ->; [|done].
  destruct q as [|a [|b q]]; [done| |].
  - rewrite (startswith_cons _ _ _ "") in H1.
    apply andb_true_iff in H1 as [->%Ascii.eqb_eq _].
    change (Str.startswith ("/" +:+ glue "/" +:+ name) "//")
      with (true && Str.startswith name "/").
    by rewrite Hrel.
  - transitivity (Str.startswith (String a (String b q)) "//");
      [reflexivity | exact H2].
Qed.

Lemma accepted_shape (q : string) :
  Str.startswith (posixpath.normpath q) "/data" = true ->
  q <> "" /\ posixpath.initial_slashes q = 1%nat
  /\ exists x r, normpath_comps q = x :: r
                 /\ Str.startswith x "data" = true.
Proof.
  destruct (String.eqb_spec q "") as [->|Hq]; [done|].
  rewrite normpath_eq by done.
  pose proof (normpath_comps_components q) as Hl.
  destruct (normpath_comps q) as [|x r].
  { destruct (initial_slashes_cases q) as [-> | [-> | ->]]; done. }
  inversion Hl as [|? ? Hx _]; subst.
  destruct (component_head x r Hx) as (c & t & Hc & Hjoin).
  destruct (initial_slashes_cases q) as [Hk | [Hk | Hk]]; rewrite Hk.
  - change (Str.times posixpath.sep 0 +:+ Str.join posixpath.sep (x :: r))
      with (Str.join posixpath.sep (x :: r)).
    rewrite Hjoin. cbn [String.eqb]. rewrite (startswith_cons _ _ _ "data").
    by destruct (Ascii.eqb_spec c "/").
  - change (Str.times posixpath.sep 1 +:+ Str.join posixpath.sep (x :: r))
      with (String "/" (Str.join posixpath.sep (x :: r))).
    cbn [String.eqb]. rewrite (startswith_cons _ _ _ "data"), Ascii.eqb_refl.
    cbn [andb]. rewrite (startswith_join_head x r "data") by done.
    intros Hd. split; [done|]. split; [done|]. by exists x, r.
  - change (Str.times posixpath.sep 2 +:+ Str.join posixpath.sep (x :: r))
      with (String "/" (String "/" (Str.join posixpath.sep (x :: r)))).
    done.
Qed.

Lemma shape_accepted (q x : string) (r : list string) :
  q <> "" -> posixpath.initial_slashes q = 1%nat ->
  normpath_comps q = x :: r ->
  Str.startswith x "data" = true ->
  Str.startswith (posixpath.normpath q) "/data" = true.
Proof.
  intros Hq Hk Hl Hd. rewrite normpath_eq, Hk, Hl by done.
  change (Str.times posixpath.sep 1 +:+ Str.join posixpath.sep (x :: r))
    with (String "/" (Str.join posixpath.sep (x :: r))).
  cbn [String.eqb]. rewrite (startswith_cons _ _ _ "data"), Ascii.eqb_refl.
  cbn [andb]. by rewrite (startswith_join_head x r "data").
Qed.

Lemma abspath_join (cwd d name : string) :
  proper name ->
  posixpath.abspath_str cwd (posixpath.join d name)
  = posixpath.normpath
      (posixpath.join
         (if negb (Str.startswith d posixpath.sep)
          then posixpath.join cwd d else d) name).
Proof.
  intros Hname. unfold posixpath.abspath_str, posixpath.sep.
  destruct (proper_relative name Hname) as (c & t & _ & _ & Hrel).
  destruct (Str.startswith d "/") eqn:Hd; cbn [negb].
  - assert (Str.startswith (posixpath.join d name) "/" = true) as ->; [|done].
    rewrite join_glue by done. by apply startswith_app.
  - rewrite (join_relative_relative d name Hd Hname). cbn [negb].
    by rewrite join_assoc.
Qed.

Lemma B12_join_proper (cwd d name : string) :
  B12 cwd (PStr d) = Ok true ->
  proper name ->
  B12 cwd (PStr (posixpath.join d name)) = Ok true.
Proof.
  rewrite !B12_str. intros [= Hd] Hname. f_equal.
  rewrite abspath_join by done. unfold posixpath.abspath_str in Hd.
  set (q := if negb _ then _ else _) in *.
  destruct (accepted_shape q Hd) as (Hq & Hk & x & r & Hl & Hx).
  destruct (proper_relative name Hname) as (c & t & _ & _ & Hrel).
  apply (shape_accepted _ x (r ++ [name])); [| |  |done].
  - rewrite join_glue by done. by destruct q.
  - by apply initial_slashes_join.
  - unfold normpath_comps in *.
    rewrite initial_slashes_join, normpath_loop_join by done.
    rewrite Hk in Hl. by rewrite Hl.
Qed.

(** X3: the normalized absolute form of a path that the guard accepts is a
    single '/' followed by at least one segment, the segments separated by
    single '/': split on '/', it gives an empty first item and then only
    segments that are non-empty and neither '.' nor '..'. *)
Theorem B12_accepted_is_normal (cwd p : string) :
  B12 cwd (PStr p) = Ok true ->
  exists segments,
    Str.split "/" (posixpath.abspath_str cwd p) = "" :: segments
    /\ posixpath.abspath_str cwd p = "/" +:+ Str.join "/" segments
    /\ segments <> []
    /\ Forall (fun c => c <> "" /\ c <> "." /\ c <> "..") segments.
Proof.
  rewrite B12_str. intros [= Hp]. unfold posixpath.abspath_str in *.
  set (q := if negb _ then _ else _) in *.
  destruct (accepted_shape q Hp) as (Hq & Hk & x & r & Hl & Hx).
  assert (Hproper : Forall proper (normpath_comps q)).
  { apply normpath_loop_proper; [by rewrite Hk | done | apply split_sep_free]. }
  assert (Hn : posixpath.normpath q
               = Str.times posixpath.sep 1
                 +:+ Str.join posixpath.sep (normpath_comps q)).
  { rewrite normpath_eq, Hk, Hl by done. reflexivity. }
  exists (normpath_comps q). split; [|split; [exact Hn|split]].
  - rewrite Hn. change "/"%char with posixpath.sep_char.
    rewrite split_times, split_join; [done | by rewrite Hl |].
    eapply Forall_impl; [exact Hproper|]. by intros c [[_ ?] _].
  - by rewrite Hl.
  - eapply Forall_impl; [exact Hproper|]. by intros c [[? _] [? ?]].
Qed.

(** X4: on an absolute path the answer of the guard is the same in every
    working directory. *)
Theorem B12_absolute_ignores_cwd (cwd1 cwd2 p : string) :
  Str.startswith p "/" = true ->
  B12 cwd1 (PStr p) = B12 cwd2 (PStr p).
Proof.
  intros Hp. rewrite !B12_str. unfold posixpath.abspath_str, posixpath.sep.
  by rewrite Hp.
Qed.


(** X6: the guard is closed under descent: joining names that are non-empty,
    free of '/' and neither '.' nor '..' onto an accepted directory gives
    an accepted path. *)
Theorem B12_descendants (cwd d : string) (names : list string) :
  B12 cwd (PStr d) = Ok true ->
  Forall proper names ->
  B12 cwd (PStr (fold_left posixpath.join names d)) = Ok true.
Proof.
  intros Hd Hnames. revert d Hd.
  induction Hnames as [|name names Hname _ IH]; intros d Hd; simpl; [done|].
  apply IH. by apply B12_join_proper.
Qed.

(* ===================================================================== *)
(** ** Invariants of every run *)
(* ===================================================================== *)

Section Triples.

Variable cwd : string.
Variable F : string -> Prop.

Lemma evolves_refl (s : state) : evolves cwd F s s.
Proof.
  split; [|done]. exists []. split; [by rewrite app_nil_r | constructor].
Qed.

Lemma evolves_trans (s1 s2 s3 : state) :
  evolves cwd F s1 s2 -> evolves cwd F s2 s3 -> evolves cwd F s1 s3.
Proof.
  intros [(t1 & Ht1 & Hok1) Hf1] [(t2 & Ht2 & Hok2) Hf2]. split.
  - exists (t1 ++ t2)%list. split.
    + by rewrite Ht2, Ht1, app_assoc.
    + by apply Forall_app.
  - intros q Hq. by rewrite Hf2, Hf1.
Qed.

Lemma evolves_emit (s : state) (ev : event) :
  approved cwd ev ->
  evolves cwd F s {| fs := fs s; trace := trace s ++ [ev] |}.
Proof.
  intros Hev. split; [|done]. exists [ev]. split; [done|]. by constructor.
Qed.

Lemma evolves_store (s : state) (p data : string) :
  F p -> evolves cwd F s {| fs := <[p := data]> (fs s); trace := trace s |}.
Proof.
  intros Hp. split.
  - exists []. split; [by rewrite app_nil_r | constructor].
  - intros q Hq. simpl. apply lookup_insert_ne. by intros ->.
Qed.

Lemma triple_ret {A} (Q : A -> Prop) (a : A) : Q a -> triple cwd F Q (ret a).
Proof. intros Ha s. split; [apply evolves_refl|]. by intros ? [= <-]. Qed.

Lemma triple_raise {A} (Q : A -> Prop) (e : exn) : triple cwd F Q (raise e).
Proof. intros s. split; [apply evolves_refl | done]. Qed.

Lemma triple_lift {A} (Q : A -> Prop) (r : result A) :
  (forall a, r = Ok a -> Q a) -> triple cwd F Q (lift r).
Proof.
  intros Hr. destruct r as [a|e]; [apply triple_ret; auto | apply triple_raise].
Qed.

Lemma triple_bind {A B} (Q : A -> Prop) (R : B -> Prop) (m : M A)
    (k : A -> M B) :
  triple cwd F Q m -> (forall a, Q a -> triple cwd F R (k a)) ->
  triple cwd F R (bind m k).
Proof.
  intros Hm Hk s. destruct (Hm s) as [Hs HQ]. unfold bind.
  destruct (m s) as [[a|e] s'] eqn:Hms; simpl in *.
  - destruct (Hk a (HQ a eq_refl) s') as [Hs' HR].
    split; [by eapply evolves_trans | done].
  - split; [done | done].
Qed.

Lemma triple_weaken {A} (Q Q' : A -> Prop) (m : M A) :
  triple cwd F Q m -> (forall a, Q a -> Q' a) -> triple cwd F Q' m.
Proof. intros Hm HQ s. destruct (Hm s). split; auto. Qed.

Lemma triple_emit (ev : event) :
  approved cwd ev -> triple cwd F (fun _ => True) (emit ev).
Proof. intros Hev s. split; [by apply evolves_emit | done]. Qed.

Lemma triple_print (msg : string) : triple cwd F (fun _ => True) (print msg).
Proof. apply triple_emit. by intros p. Qed.

(** A step that replaces the contents of one file in [F]. *)
Lemma triple_store (p : string) (g : gmap string string -> string) :
  F p ->
  triple cwd F (fun _ => True)
    (bind get_fs (fun f => put_fs (<[p := g f]> f))).
Proof. intros Hp s. split; [by apply evolves_store | done]. Qed.

End Triples.

Section TaskTriples.

Context {rows image : Type}.
Variable W : World rows image.
Variable F : string -> Prop.

Local Abbreviation allowed p := (B12 (getcwd W) (PStr p) = Ok true).
Local Abbreviation holds Q m := (triple (getcwd W) F Q m).
Local Abbreviation runs m := (triple (getcwd W) F (fun _ => True) m).

Lemma approved_path (ev : event) (p : string) :
  event_path ev = Some p -> allowed p -> approved (getcwd W) ev.
Proof. intros Hev Hp p' Hp'. congruence. Qed.

Lemma approved_no_path (ev : event) :
  event_path ev = None -> approved (getcwd W) ev.
Proof. intros Hev p Hp. congruence. Qed.

Lemma triple_guard (p : string) :
  holds (fun b => B12 (getcwd W) (PStr p) = Ok b) (guard W p).
Proof. unfold guard. rewrite B12_str. by apply triple_ret. Qed.

Lemma triple_gate (a b : string) :
  holds (fun denied => denied = false -> allowed a /\ allowed b)
    (por (ok <- guard W a ;; ret (negb ok))
         (ok <- guard W b ;; ret (negb ok))).
Proof.
  unfold por.
  eapply triple_bind with (Q := fun x => x = false -> allowed a).
  - eapply triple_bind; [apply triple_guard|].
    intros ok Hok. apply triple_ret. by destruct ok.
  - intros [] Ha; [by apply triple_ret|].
    eapply triple_bind; [apply triple_guard|].
    intros ok Hok. apply triple_ret. destruct ok; [auto | done].
Qed.

Lemma triple_http_get (url : string) : holds (fun _ => True) (http_get W url).
Proof.
  unfold http_get.
  eapply triple_bind; [by apply triple_emit, approved_no_path|].
  intros _ _. by apply triple_lift.
Qed.

Lemma triple_raise_for_status (r : response) : runs (raise_for_status r).
Proof.
  unfold raise_for_status.
  destruct (http_failure r); [apply triple_raise | by apply triple_ret].
Qed.

Lemma triple_open_w (p : string) : allowed p -> F p -> runs (open_w W p).
Proof.
  intros Hp HF. unfold open_w.
  eapply triple_bind; [by apply triple_emit, (approved_path _ p)|].
  intros _ _. destruct (writable W p); [|apply triple_raise].
  by apply (triple_store _ _ p (fun _ => "")).
Qed.

Lemma triple_file_write (p data : string) :
  allowed p -> F p -> runs (file_write p data).
Proof.
  intros Hp HF. unfold file_write.
  eapply triple_bind; [by apply triple_emit, (approved_path _ p)|].
  intros _ _.
  by apply (triple_store _ _ p (fun f => default "" (f !! p) +:+ data)).
Qed.

Lemma triple_get_fs : holds (fun _ => True) get_fs.
Proof. intros s. split; [apply evolves_refl | done]. Qed.

Lemma triple_open_r (p mode : string) : allowed p -> runs (open_r p mode).
Proof.
  intros Hp. unfold open_r.
  eapply triple_bind; [by apply triple_emit, (approved_path _ p)|].
  intros _ _. eapply triple_bind; [apply triple_get_fs|].
  intros f _. destruct (f !! p); [by apply triple_ret | apply triple_raise].
Qed.

Lemma triple_file_read (p : string) :
  allowed p -> holds (fun _ => True) (file_read p).
Proof.
  intros Hp. unfold file_read.
  eapply triple_bind; [by apply triple_emit, (approved_path _ p)|].
  intros _ _. eapply triple_bind; [apply triple_get_fs|].
  intros f _. by apply triple_ret.
Qed.

Lemma triple_connect (e : engine) (p : string) :
  allowed p -> holds (fun conn => conn = (e, p)) (connect W e p).
Proof.
  intros Hp. unfold connect.
  eapply triple_bind; [by apply triple_emit, (approved_path _ p)|].
  intros _ _.
  destruct (connect_error W e p); [apply triple_raise | by apply triple_ret].
Qed.

Lemma triple_execute (conn : engine * string) (query : string) :
  allowed conn.2 -> holds (fun _ => True) (execute W conn query).
Proof.
  intros Hp. unfold execute.
  eapply triple_bind; [by apply triple_emit, (approved_path _ conn.2)|].
  intros _ _. by apply triple_lift.
Qed.

Lemma triple_fetchall (conn : engine * string) (pending : rows) :
  allowed conn.2 -> holds (fun _ => True) (fetchall conn pending).
Proof.
  intros Hp. unfold fetchall.
  eapply triple_bind; [by apply triple_emit, (approved_path _ conn.2)|].
  intros _ _. by apply triple_ret.
Qed.

Lemma triple_close (conn : engine * string) : allowed conn.2 -> runs (close conn).
Proof. intros Hp. by apply triple_emit, (approved_path _ conn.2). Qed.

Lemma triple_image_open (p : string) :
  allowed p -> holds (fun _ => True) (image_open W p).
Proof.
  intros Hp. unfold image_open.
  eapply triple_bind; [by apply triple_emit, (approved_path _ p)|].
  intros _ _. eapply triple_bind; [apply triple_get_fs|].
  intros f _. destruct (f !! p); [by apply triple_lift | apply triple_raise].
Qed.

Lemma triple_image_save (img : image) (p : string) :
  allowed p -> F p -> runs (image_save W img p).
Proof.
  intros Hp HF. unfold image_save.
  eapply triple_bind; [by apply triple_emit, (approved_path _ p)|].
  intros _ _.
  eapply triple_bind with (Q := fun _ => True); [by apply triple_lift|].
  intros data _. destruct (writable W p); [|apply triple_raise].
  by apply (triple_store _ _ p (fun _ => data)).
Qed.

Lemma triple_audio_transcribe (api_key model p : string) :
  allowed p -> holds (fun _ => True) (audio_transcribe W api_key model p).
Proof.
  intros Hp. unfold audio_transcribe.
  eapply triple_bind; [apply triple_file_read; exact Hp|].
  intros audio _.
  eapply triple_bind; [by apply triple_emit, approved_no_path|].
  intros _ _. by apply triple_lift.
Qed.

Lemma triple_subprocess (argv : list string) :
  (forall q, F q) -> runs (subprocess_run_check W argv).
Proof.
  intros HF s. unfold subprocess_run_check, bind, emit, get_fs, put_fs. simpl.
  destruct (subprocess_run W argv (fs s)) as [rc f'].
  assert (Hev : evolves (getcwd W) F s
                  {| fs := f'; trace := trace s ++ [EvSubprocess argv] |}).
  { split.
    - exists [EvSubprocess argv]. split; [done|].
      constructor; [by apply approved_no_path | constructor].
    - intros q Hq. by destruct (Hq (HF q)). }
  simpl. by destruct (rc =? 0).
Qed.

(** *** The tasks *)

Ltac next rule := eapply triple_bind; [rule | intros ? ?].

Lemma B3_triple (url save_path : string) :
  F save_path -> runs (B3 W url save_path).
Proof.
  intros HF. unfold B3. eapply triple_bind; [apply triple_guard|].
  intros [] Hok; simpl; [|apply triple_raise].
  next ltac:(apply triple_http_get).
  next ltac:(apply triple_raise_for_status).
  next ltac:(by apply triple_open_w).
  next ltac:(by apply triple_file_write).
  apply triple_print.
Qed.

Lemma B6_triple (url output_filename : string) :
  F output_filename -> runs (B6 W url output_filename).
Proof.
  intros HF. unfold B6. eapply triple_bind; [apply triple_guard|].
  intros [] Hok; simpl; [|apply triple_raise].
  next ltac:(apply triple_http_get).
  next ltac:(by apply triple_open_w).
  next ltac:(by apply triple_file_write).
  apply triple_print.
Qed.

Lemma B5_triple (db_path query output_filename : string) :
  F output_filename ->
  holds (fun _ => True) (B5 W db_path query output_filename).
Proof.
  intros HF. unfold B5. eapply triple_bind; [apply triple_gate|].
  intros [] Hd; [apply triple_raise|]. destruct (Hd eq_refl) as [Ha Hb].
  eapply triple_bind with (Q := fun conn => conn.2 = db_path).
  { destruct (Str.endswith db_path ".db");
      (eapply triple_weaken; [by apply triple_connect | by intros ? ->]). }
  intros conn Hconn.
  next ltac:(apply triple_execute; by rewrite Hconn).
  next ltac:(apply triple_fetchall; by rewrite Hconn).
  next ltac:(apply triple_close; by rewrite Hconn).
  next ltac:(by apply triple_open_w).
  next ltac:(by apply triple_file_write).
  next ltac:(apply triple_print).
  by apply triple_ret.
Qed.

Lemma B7_triple (image_path output_path : string) (resize : option (Z * Z)) :
  F output_path -> runs (B7 W image_path output_path resize).
Proof.
  intros HF. unfold B7. eapply triple_bind; [apply triple_gate|].
  intros [] Hd; [apply triple_raise|]. destruct (Hd eq_refl) as [Ha Hb].
  next ltac:(by apply triple_image_open).
  eapply triple_bind with (Q := fun _ => True).
  { destruct resize; [by apply triple_lift | by apply triple_ret]. }
  intros img _.
  next ltac:(by apply triple_image_save).
  apply triple_print.
Qed.

Lemma B8_triple (audio_path output_path : string) :
  F output_path -> holds (fun _ => True) (B8 W audio_path output_path).
Proof.
  intros HF. unfold B8. eapply triple_bind; [apply triple_gate|].
  intros [] Hd; [apply triple_raise|]. destruct (Hd eq_refl) as [Ha Hb].
  destruct (environ W !! "OPENAI_API_KEY") as [api_key|]; [|apply triple_raise].
  next ltac:(by apply triple_open_r).
  next ltac:(by apply triple_audio_transcribe).
  next ltac:(by apply triple_open_w).
  next ltac:(by apply triple_file_write).
  next ltac:(apply triple_print).
  by apply triple_ret.
Qed.

Lemma B9_triple (md_path output_path : string) :
  F output_path -> runs (B9 W md_path output_path).
Proof.
  intros HF. unfold B9. eapply triple_bind; [apply triple_gate|].
  intros [] Hd; [apply triple_raise|]. destruct (Hd eq_refl) as [Ha Hb].
  next ltac:(by apply triple_open_r).
  next ltac:(by apply triple_file_read).
  next ltac:(by apply triple_open_w).
  next ltac:(by apply triple_file_write).
  apply triple_print.
Qed.

Lemma B4_triple (repo_url commit_message clone_dir : string) :
  (forall q, F q) -> runs (B4 W repo_url commit_message clone_dir).
Proof.
  intros HF. unfold B4. eapply triple_bind; [apply triple_guard|].
  intros [] Hok; simpl; [|apply triple_raise].
  assert (Hdummy : allowed (posixpath.join clone_dir "dummy.txt")).
  { apply B12_join_proper; [done|]. by repeat split. }
  next ltac:(by apply triple_subprocess).
  next ltac:(by apply triple_open_w).
  next ltac:(by apply triple_file_write).
  next ltac:(by apply triple_subprocess).
  next ltac:(by apply triple_subprocess).
  apply triple_print.
Qed.

End TaskTriples.

(** X7: in every run of every task, whatever the collaborators answer,
    each file, database and image operation that the task performs is on a
    path that the guard accepts; this covers the marker file of [B4]. *)
Theorem tasks_confined {rows image : Type} (W : World rows image) :
  (forall url save_path, confined (getcwd W) (B3 W url save_path))
  /\ (forall repo_url commit_message clone_dir,
         confined (getcwd W) (B4 W repo_url commit_message clone_dir))
  /\ (forall db_path query output_filename,
         confined (getcwd W) (B5 W db_path query output_filename))
  /\ (forall url output_filename,
         confined (getcwd W) (B6 W url output_filename))
  /\ (forall image_path output_path resize,
         confined (getcwd W) (B7 W image_path output_path resize))
  /\ (forall audio_path output_path,
         confined (getcwd W) (B8 W audio_path output_path))
  /\ (forall md_path output_path,
         confined (getcwd W) (B9 W md_path output_path)).
Proof.
  repeat split; intros; intros s.
  - by apply (B3_triple W (fun _ => True)).
  - by apply (B4_triple W (fun _ => True)).
  - by apply (B5_triple W (fun _ => True)).
  - by apply (B6_triple W (fun _ => True)).
  - by apply (B7_triple W (fun _ => True)).
  - by apply (B8_triple W (fun _ => True)).
  - by apply (B9_triple W (fun _ => True)).
Qed.

(** Case analysis on every answer of a collaborator met along a run. *)
Ltac case_answers W :=
  repeat match goal with
         | |- context [Str.startswith ?a ?b] => destruct (Str.startswith a b)
         | |- context [Str.endswith ?a ?b] => destruct (Str.endswith a b)
         end;
  repeat (simpl;
          match goal with
          | |- context [requests_get W ?u] => destruct (requests_get W u)
          | |- context [http_failure ?r] => destruct (http_failure r)
          | |- context [writable W ?p] => destruct (writable W p)
          | |- context [subprocess_run W ?a ?f] =>
              destruct (subprocess_run W a f) as [? ?]
          | |- context [Z.eqb ?rc 0] => destruct (Z.eqb rc 0)
          | |- context [connect_error W ?e ?p] =>
              destruct (connect_error W e p)
          | |- context [run_query W ?e ?p ?q] => destruct (run_query W e p q)
          | |- context [image_decode W ?d] => destruct (image_decode W d)
          | |- context [image_resize W ?i ?z] => destruct (image_resize W i z)
          | |- context [image_encode W ?i ?p] => destruct (image_encode W i p)
          | |- context [transcribe W ?k ?m ?a] => destruct (transcribe W k m a)
          | |- context [environ W !! ?k] => destruct (environ W !! k)
          | |- context [match fs ?s !! ?p with _ => _ end] =>
              destruct (fs s !! p)
          end).

(** After the case analysis: the trace grew by a list of operations, each
    of which writes, if at all, to [out]. *)
Ltac solve_writes_only W :=
  intros s; unfold_prims; unfold guard, por, lift, bind, ret, raise;
  rewrite ?B12_str; case_answers W;
  (eexists; split;
   [ first [ by instantiate (1 := []); rewrite app_nil_r
           | simpl; rewrite <- ?app_assoc; reflexivity ]
   | simpl; repeat (constructor; [intros ?; simpl; congruence|]);
     exact (List.Forall_nil _) ]).

Section WriteTargets.

Context {rows image : Type}.
Variable W : World rows image.

Lemma B3_writes_only (url out : string) : writes_only out (B3 W url out).
Proof. unfold B3. solve_writes_only W. Qed.

Lemma B6_writes_only (url out : string) : writes_only out (B6 W url out).
Proof. unfold B6. solve_writes_only W. Qed.

Lemma B5_writes_only (db_path query out : string) :
  writes_only out (B5 W db_path query out).
Proof. unfold B5. solve_writes_only W. Qed.

Lemma B7_writes_only (image_path out : string) (resize : option (Z * Z)) :
  writes_only out (B7 W image_path out resize).
Proof. unfold B7. destruct resize; solve_writes_only W. Qed.

Lemma B8_writes_only (audio_path out : string) :
  writes_only out (B8 W audio_path out).
Proof. unfold B8. solve_writes_only W. Qed.

Lemma B9_writes_only (md_path out : string) :
  writes_only out (B9 W md_path out).
Proof. unfold B9. solve_writes_only W. Qed.

Lemma B4_writes_only (repo_url commit_message clone_dir : string) :
  writes_only (posixpath.join clone_dir "dummy.txt")
    (B4 W repo_url commit_message clone_dir).
Proof. unfold B4. solve_writes_only W. Qed.

End WriteTargets.

(** X8: in every run of a task, whatever the collaborators answer, each
    operation of the task that opens a file for writing, writes to a file
    or saves an image is on the output path given to the task; for [B4] it
    is on 'dummy.txt' inside the clone directory.  What git and the
    database engines write on their own is no operation of the task. *)
Theorem tasks_write_only_output {rows image : Type} (W : World rows image) :
  (forall url save_path, writes_only save_path (B3 W url save_path))
  /\ (forall repo_url commit_message clone_dir,
         writes_only (posixpath.join clone_dir "dummy.txt")
           (B4 W repo_url commit_message clone_dir))
  /\ (forall db_path query output_filename,
         writes_only output_filename (B5 W db_path query output_filename))
  /\ (forall url output_filename,
         writes_only output_filename (B6 W url output_filename))
  /\ (forall image_path output_path resize,
         writes_only output_path (B7 W image_path output_path resize))
  /\ (forall audio_path output_path,
         writes_only output_path (B8 W audio_path output_path))
  /\ (forall md_path output_path,
         writes_only output_path (B9 W md_path output_path)).
Proof.
  repeat split; intros.
  - apply B3_writes_only.
  - apply B4_writes_only.
  - apply B5_writes_only.
  - apply B6_writes_only.
  - apply B7_writes_only.
  - apply B8_writes_only.
  - apply B9_writes_only.
Qed.

(* ===================================================================== *)
(** ** Failures and complete runs of the tasks *)
(* ===================================================================== *)

Section TaskRuns.

Context {rows image : Type}.
Variable W : World rows image.

Local Abbreviation allowed p := (B12 (getcwd W) (PStr p) = Ok true).

(** X9: when [requests.get] raises, [B3] and [B6] raise the same exception
    after the request alone: no file is opened and nothing is printed. *)
Theorem http_exception_propagates (url path : string) (e : exn) (s : state) :
  allowed path ->
  requests_get W url = Err e ->
  B3 W url path s
  = (Err e, {| fs := fs s; trace := trace s ++ [EvHttpGet url] |})
  /\ B6 W url path s
     = (Err e, {| fs := fs s; trace := trace s ++ [EvHttpGet url] |}).
Proof.
  intros Hg Hr. split; [unfold B3 | unfold B6];
    rewrite (bind_ok _ _ _ _ _ (guard_run W _ _ s Hg)); simpl;
    unfold_prims; use_facts; reflexivity.
Qed.

(** X10: when 'git clone' exits with a non-zero code, [B4] raises
    [CalledProcessError] with that code at once: the marker file is not
    written and no other git command runs. *)
Theorem B4_clone_failure (repo_url commit_message clone_dir : string)
    (rc : Z) (f' : gmap string string) (s : state) :
  allowed clone_dir ->
  subprocess_run W ["git"; "clone"; repo_url; clone_dir] (fs s) = (rc, f') ->
  rc <> 0 ->
  B4 W repo_url commit_message clone_dir s
  = (Err (CalledProcessError rc ["git"; "clone"; repo_url; clone_dir]),
     {| fs := f';
        trace := trace s ++ [EvSubprocess ["git"; "clone"; repo_url; clone_dir]]
     |}).
Proof.
  intros Hg Hrun Hrc. unfold B4.
  rewrite (bind_ok _ _ _ _ _ (guard_run W _ _ s Hg)); simpl.
  unfold_prims; simpl. rewrite Hrun. simpl.
  by destruct (Z.eqb_spec rc 0).
Qed.

(** X11: when the three git commands exit with 0 and the marker file can be
    opened, [B4] clones, writes 'dummy.txt' inside the clone directory, then
    stages, then commits with the caller's message, in this order, and
    ends normally. *)
Theorem B4_run (repo_url commit_message clone_dir : string)
    (f1 f2 f3 : gmap string string) (s : state) :
  let dummy_file := posixpath.join clone_dir "dummy.txt" in
  let text := "This is a dummy commit." +:+ String "010" "" in
  let clone := ["git"; "clone"; repo_url; clone_dir] in
  let add := ["git"; "-C"; clone_dir; "add"; "."] in
  let commit := ["git"; "-C"; clone_dir; "commit"; "-m"; commit_message] in
  allowed clone_dir ->
  subprocess_run W clone (fs s) = (0, f1) ->
  writable W dummy_file = true ->
  subprocess_run W add (<[dummy_file := text]> f1) = (0, f2) ->
  subprocess_run W commit f2 = (0, f3) ->
  B4 W repo_url commit_message clone_dir s
  = (Ok tt,
     {| fs := f3;
        trace := trace s ++
          [EvSubprocess clone; EvOpen dummy_file "w";
           EvWrite dummy_file text; EvSubprocess add; EvSubprocess commit;
           EvPrint ("Repository cloned from " +:+ repo_url +:+ " into "
                    +:+ clone_dir +:+ " and commit made.")] |}).
Proof.
  intros dummy_file text clone add commit Hg H1 Hw H2 H3. unfold B4.
  rewrite (bind_ok _ _ _ _ _ (guard_run W _ _ s Hg)); simpl.
  fold dummy_file. unfold_prims; simpl.
  fold clone in H1 |- *. rewrite H1. simpl. rewrite Hw. simpl.
  rewrite lookup_insert_eq, insert_insert_eq. simpl.
  change ("" +:+ "This is a dummy commit." +:+ String "010" "") with text.
  fold add. rewrite H2. simpl. fold commit. rewrite H3. simpl.
  by rewrite <- !app_assoc.
Qed.

(** X12: when the connection fails, [B5] raises after the connect alone;
    when the query fails, it raises after connect and execute: the
    connection is not closed and the output file is not opened. *)
Theorem B5_failures (db_path query output_filename : string) (ex : exn)
    (s : state) :
  let e := if Str.endswith db_path ".db" then Sqlite3 else DuckDB in
  allowed db_path ->
  allowed output_filename ->
  (connect_error W e db_path = Some ex ->
   B5 W db_path query output_filename s
   = (Err ex, {| fs := fs s; trace := trace s ++ [EvConnect e db_path] |}))
  /\ (connect_error W e db_path = None ->
      run_query W e db_path query = Err ex ->
      B5 W db_path query output_filename s
      = (Err ex,
         {| fs := fs s;
            trace := trace s ++
              [EvConnect e db_path; EvExecute e db_path query] |})).
Proof.
  intros e Ha Hb.
  split; [intros Hc | intros Hc Hq]; unfold B5;
    rewrite (bind_ok _ _ _ _ _ (gate_allowed W _ _ s Ha Hb)); subst e;
    destruct (Str.endswith db_path ".db");
    unfold_prims; use_facts; tidy_state; reflexivity.
Qed.

(** X13: [B7] saves the decoded image, resized only when a size is given,
    encoded for the output path; it reads the input once and performs one
    save. *)
Theorem B7_run (image_path output_path : string) (resize : option (Z * Z))
    (data out : string) (img img' : image) (s : state) :
  allowed image_path ->
  allowed output_path ->
  fs s !! image_path = Some data ->
  image_decode W data = Ok img ->
  match resize with
  | Some size => image_resize W img size
  | None => Ok img
  end = Ok img' ->
  image_encode W img' output_path = Ok out ->
  writable W output_path = true ->
  B7 W image_path output_path resize s
  = (Ok tt,
     {| fs := <[output_path := out]> (fs s);
        trace := trace s ++
          [EvImageOpen image_path; EvImageSave output_path;
           EvPrint ("Image processed from " +:+ image_path
                    +:+ " and saved to " +:+ output_path)] |}).
Proof.
  intros Ha Hb Hin Hdec Hres Henc Hw. unfold B7.
  rewrite (bind_ok _ _ _ _ _ (gate_allowed W _ _ s Ha Hb)).
  unfold_prims; simpl. rewrite Hin, Hdec.
  destruct resize as [size|]; simpl in *.
  - rewrite Hres. simpl. rewrite Henc. simpl. rewrite Hw. simpl.
    by rewrite <- !app_assoc.
  - injection Hres as <-. rewrite Henc. simpl. rewrite Hw. simpl.
    by rewrite <- !app_assoc.
Qed.

(** X14: when the input file does not exist, [B7], [B8] (with the
    credential set) and [B9] raise [FileNotFoundError] at the first
    operation; the file store is unchanged, so no output file is created,
    and [B8] does not call the transcription service. *)
Theorem missing_input_file (input output : string) (s : state) :
  allowed input ->
  allowed output ->
  fs s !! input = None ->
  (forall resize,
      B7 W input output resize s
      = (Err (FileNotFoundError input),
         {| fs := fs s; trace := trace s ++ [EvImageOpen input] |}))
  /\ (forall api_key,
         environ W !! "OPENAI_API_KEY" = Some api_key ->
         B8 W input output s
         = (Err (FileNotFoundError input),
            {| fs := fs s; trace := trace s ++ [EvOpen input "rb"] |}))
  /\ B9 W input output s
     = (Err (FileNotFoundError input),
        {| fs := fs s; trace := trace s ++ [EvOpen input "r"] |}).
Proof.
  intros Ha Hb Hin. split; [|split].
  - intros resize. unfold B7.
    rewrite (bind_ok _ _ _ _ _ (gate_allowed W _ _ s Ha Hb)).
    unfold_prims; simpl. by rewrite Hin.
  - intros api_key Hkey. unfold B8.
    rewrite (bind_ok _ _ _ _ _ (gate_allowed W _ _ s Ha Hb)).
    rewrite Hkey. unfold_prims; simpl. by rewrite Hin.
  - unfold B9.
    rewrite (bind_ok _ _ _ _ _ (gate_allowed W _ _ s Ha Hb)).
    unfold_prims; simpl. by rewrite Hin.
Qed.

(** X15: on success [B8] returns the 'text' entry of the transcript, or
    the empty string when the entry is missing, and the output file holds
    exactly the returned text; the audio is opened in binary mode and sent
    with the model 'whisper-1'. *)
Theorem B8_run (audio_path output_path api_key audio : string)
    (transcript : gmap string string) (s : state) :
  let transcription_text := default "" (transcript !! "text") in
  allowed audio_path ->
  allowed output_path ->
  environ W !! "OPENAI_API_KEY" = Some api_key ->
  fs s !! audio_path = Some audio ->
  transcribe W api_key "whisper-1" audio = Ok transcript ->
  writable W output_path = true ->
  B8 W audio_path output_path s
  = (Ok transcription_text,
     {| fs := <[output_path := transcription_text]> (fs s);
        trace := trace s ++
          [EvOpen audio_path "rb"; EvRead audio_path;
           EvTranscribe "whisper-1"; EvOpen output_path "w";
           EvWrite output_path transcription_text;
           EvPrint ("Audio from " +:+ audio_path
                    +:+ " transcribed and saved to " +:+ output_path)] |}).
Proof.
  intros txt Ha Hb Hkey Hin Htr Hw. unfold B8.
  rewrite (bind_ok _ _ _ _ _ (gate_allowed W _ _ s Ha Hb)).
  rewrite Hkey. unfold_prims; simpl. use_facts. tidy_state. reflexivity.
Qed.

(** X16: on success the output file of [B9] holds the rendering of the
    contents that the Markdown file had when the task started, also when
    the two paths are the same file. *)
Theorem B9_run (md_path output_path src : string) (s : state) :
  allowed md_path ->
  allowed output_path ->
  fs s !! md_path = Some src ->
  writable W output_path = true ->
  B9 W md_path output_path s
  = (Ok tt,
     {| fs := <[output_path := markdown W src]> (fs s);
        trace := trace s ++
          [EvOpen md_path "r"; EvRead md_path; EvOpen output_path "w";
           EvWrite output_path (markdown W src);
           EvPrint ("Markdown from " +:+ md_path
                    +:+ " converted to HTML and saved to "
                    +:+ output_path)] |}).
Proof.
  intros Ha Hb Hin Hw. unfold B9.
  rewrite (bind_ok _ _ _ _ _ (gate_allowed W _ _ s Ha Hb)).
  unfold_prims; simpl. use_facts. tidy_state. reflexivity.
Qed.

End TaskRuns.

(* ===================================================================== *)
(** ** The further properties at concrete inputs *)
(* ===================================================================== *)

Lemma guard_spec_sound_witness :
  guard_spec "/srv/app" "/data/reports/../a.txt" = true
  /\ B12 "/srv/app" (PStr "/data/reports/../a.txt") = Ok true.
Proof.
  split; [reflexivity|].
  apply guard_spec_sound; reflexivity.
Defined.

Lemma B12_accepted_is_normal_witness :
  exists segments,
    Str.split "/" (posixpath.abspath_str "/data/jobs" "./a/../b//c.txt")
    = "" :: segments
    /\ posixpath.abspath_str "/data/jobs" "./a/../b//c.txt"
       = "/" +:+ Str.join "/" segments
    /\ segments <> []
    /\ Forall (fun c => c <> "" /\ c <> "." /\ c <> "..") segments.
Proof. apply B12_accepted_is_normal. reflexivity. Defined.

Lemma B12_absolute_ignores_cwd_witness :
  B12 "/data" (PStr "/etc/../data/x") = B12 "/home/user" (PStr "/etc/../data/x").
Proof. apply B12_absolute_ignores_cwd. reflexivity. Defined.

Lemma B12_descendants_witness :
  B12 "/srv/app" (PStr (fold_left posixpath.join ["a"; "b.txt"] "/data/repo/"))
  = Ok true.
Proof.
  apply B12_descendants; [reflexivity|].
  repeat constructor; discriminate.
Defined.

Lemma http_exception_propagates_witness :
  B3 offline "http://site.test/page" "/data/page.html" start
  = (Err ConnectionError,
     {| fs := ∅; trace := [EvHttpGet "http://site.test/page"] |})
  /\ B6 offline "http://site.test/page" "/data/page.html" start
     = (Err ConnectionError,
        {| fs := ∅; trace := [EvHttpGet "http://site.test/page"] |}).
Proof.
  apply (http_exception_propagates offline "http://site.test/page"
           "/data/page.html" ConnectionError start); reflexivity.
Defined.

Lemma B4_clone_failure_witness :
  B4 offline "http://git.test/r.git" "message" "/data/repo" start
  = (Err (CalledProcessError 128
            ["git"; "clone"; "http://git.test/r.git"; "/data/repo"]),
     {| fs := ∅;
        trace := [EvSubprocess
                    ["git"; "clone"; "http://git.test/r.git"; "/data/repo"]]
     |}).
Proof.
  apply (B4_clone_failure offline "http://git.test/r.git" "message"
           "/data/repo" 128 ∅ start); [reflexivity | reflexivity | lia].
Defined.

Lemma B4_run_witness :
  B4 (serving found) "http://git.test/r.git" "message" "/data/repo" start
  = (Ok tt,
     {| fs := <["/data/repo/dummy.txt" :=
                 "This is a dummy commit." +:+ String "010" ""]> ∅;
        trace :=
          [EvSubprocess ["git"; "clone"; "http://git.test/r.git"; "/data/repo"];
           EvOpen "/data/repo/dummy.txt" "w";
           EvWrite "/data/repo/dummy.txt"
             ("This is a dummy commit." +:+ String "010" "");
           EvSubprocess ["git"; "-C"; "/data/repo"; "add"; "."];
           EvSubprocess ["git"; "-C"; "/data/repo"; "commit"; "-m"; "message"];
           EvPrint ("Repository cloned from http://git.test/r.git"
                    +:+ " into /data/repo and commit made.")] |}).
Proof.
  apply (B4_run (serving found) "http://git.test/r.git" "message"
           "/data/repo" ∅
           (<["/data/repo/dummy.txt" :=
               "This is a dummy commit." +:+ String "010" ""]> ∅)
           (<["/data/repo/dummy.txt" :=
               "This is a dummy commit." +:+ String "010" ""]> ∅)
           start); reflexivity.
Defined.

Lemma B5_failures_witness :
  B5 offline "/data/foo.duckdb" "SELECT 1" "/data/out.txt" start
  = (Err (DatabaseError "cannot open"),
     {| fs := ∅; trace := [EvConnect DuckDB "/data/foo.duckdb"] |})
  /\ B5 offline "/data/foo.db" "SELEC 1" "/data/out.txt" start
     = (Err (DatabaseError "syntax error"),
        {| fs := ∅;
           trace := [EvConnect Sqlite3 "/data/foo.db";
                     EvExecute Sqlite3 "/data/foo.db" "SELEC 1"] |}).
Proof.
  split.
  - apply (B5_failures offline "/data/foo.duckdb" "SELECT 1" "/data/out.txt"
             (DatabaseError "cannot open") start); reflexivity.
  - apply (B5_failures offline "/data/foo.db" "SELEC 1" "/data/out.txt"
             (DatabaseError "syntax error") start); reflexivity.
Defined.

Lemma B7_run_witness :
  B7 (serving found) "/data/in.png" "/data/out.png" (Some (100, 100))
    (holding "/data/in.png" "png")
  = (Ok tt,
     {| fs := <["/data/out.png" := "image"]> {[ "/data/in.png" := "png" ]};
        trace :=
          [EvImageOpen "/data/in.png"; EvImageSave "/data/out.png";
           EvPrint ("Image processed from /data/in.png"
                    +:+ " and saved to /data/out.png")] |}).
Proof.
  apply (B7_run (serving found) "/data/in.png" "/data/out.png"
           (Some (100, 100)) "png" "image" (640, 480) (100, 100)
           (holding "/data/in.png" "png")); reflexivity.
Defined.

Lemma missing_input_file_witness :
  B9 offline "/data/doc.md" "/data/doc.html" start
  = (Err (FileNotFoundError "/data/doc.md"),
     {| fs := ∅; trace := [EvOpen "/data/doc.md" "r"] |})
  /\ B8 offline "/data/doc.md" "/data/doc.html" start
     = (Err (FileNotFoundError "/data/doc.md"),
        {| fs := ∅; trace := [EvOpen "/data/doc.md" "rb"] |}).
Proof.
  destruct (missing_input_file offline "/data/doc.md" "/data/doc.html" start)
    as (_ & H8 & H9); [reflexivity..|].
  split; [exact H9|]. apply (H8 "sk-test"). reflexivity.
Defined.

Lemma B8_run_witness :
  B8 offline "/data/talk.mp3" "/data/talk.txt" (holding "/data/talk.mp3" "mp3")
  = (Ok "",
     {| fs := <["/data/talk.txt" := ""]> {[ "/data/talk.mp3" := "mp3" ]};
        trace :=
          [EvOpen "/data/talk.mp3" "rb"; EvRead "/data/talk.mp3";
           EvTranscribe "whisper-1"; EvOpen "/data/talk.txt" "w";
           EvWrite "/data/talk.txt" "";
           EvPrint ("Audio from /data/talk.mp3"
                    +:+ " transcribed and saved to /data/talk.txt")] |}).
Proof.
  etrans.
  - apply (B8_run offline "/data/talk.mp3" "/data/talk.txt" "sk-test" "mp3" ∅
             (holding "/data/talk.mp3" "mp3")); reflexivity.
  - reflexivity.
Defined.

Lemma B9_run_witness :
  B9 offline "/data/doc.md" "/data/doc.md" (holding "/data/doc.md" "hi")
  = (Ok tt,
     {| fs := <["/data/doc.md" := "<p>hi</p>"]> {[ "/data/doc.md" := "hi" ]};
        trace :=
          [EvOpen "/data/doc.md" "r"; EvRead "/data/doc.md";
           EvOpen "/data/doc.md" "w"; EvWrite "/data/doc.md" "<p>hi</p>";
           EvPrint ("Markdown from /data/doc.md"
                    +:+ " converted to HTML and saved to /data/doc.md")] |}).
Proof.
  apply (B9_run offline "/data/doc.md" "/data/doc.md" "hi"
           (holding "/data/doc.md" "hi")); reflexivity.
Defined.
